(** * KEDA external scaler for Redis lists: a shallow embedding

    The repository holds one Go service, [main.go], that implements the
    KEDA external-scaler gRPC contract on top of the length of a Redis
    list, and an earlier copy of the same program (no TLS, no progress
    logging, one debugging [log.Println] in [New]).  Both copies share,
    line for line, the constants, the two structs, [getScalerUniqueName],
    [parseRedisMetadata] and [getRedisListLength]; they differ only in
    what the five handlers write to the log.

    Layout of this file:
    - the data model (requests, responses, [RedisScaler], the server);
    - the library calls the program makes ([strconv.Atoi], the Redis
      client's [LLen], the logger), the first as an executable model of
      the documented behaviour, the other two as a reply oracle and as
      events appended to a trace;
    - the functions of [main.go], then the handlers of the earlier copy
      in [Module Plain];
    - the properties. *)

From stdpp Require Import gmap strings list fin_maps.
From Stdlib Require Import ZArith Ascii String Lia.

Open Scope string_scope.
Open Scope list_scope.
Open Scope Z_scope.

(** ** Constants ([main.go], lines 18-24) *)

Definition listLengthMetricName : string := "RedisListLength".
Definition defaultTargetListLength : Z := 5.
Definition defaultRedisAddress : string :=
  "redis-master.default.svc.cluster.local:6379".
Definition defaultRedisPassword : string := EmptyString.

(** ** Data model *)

(** [RedisScaler] (lines 54-59).  [listLength] is a Go [int]; the service
    is built for amd64, where [int] has 64 bits. *)
Record RedisScaler := mkRedisScaler {
  address : string;
  password : string;
  listName : string;
  listLength : Z
}.

(** [RedisExternalScalerServer] (lines 49-51).  A Go map field starts out
    [nil]; [None] is the nil map and [Some m] an allocated one.  The map
    holds pointers to scalers that are allocated by [parseRedisMetadata]
    and never written again, so they are modelled by their values. *)
Record RedisExternalScalerServer := mkServer {
  scalers : option (gmap string RedisScaler)
}.

(** The messages of the generated [externalscaler] package, with the
    fields the program reads or writes.  Message pointers handed to the
    handlers are taken to be non-nil. *)
Record ScaledObjectRef := mkScaledObjectRef {
  Namespace : string;
  Name : string
}.

Record NewRequest := mkNewRequest {
  New_ScaledObjectRef : ScaledObjectRef;
  Metadata : gmap string string
}.

Record GetMetricsRequest := mkGetMetricsRequest {
  GetMetrics_ScaledObjectRef : ScaledObjectRef;
  GetMetrics_MetricName : string
}.

Inductive Empty := mkEmpty.

Record IsActiveResponse := mkIsActiveResponse { Result : bool }.

Record MetricSpec := mkMetricSpec {
  Spec_MetricName : string;
  TargetSize : Z
}.

Record GetMetricSpecResponse := mkGetMetricSpecResponse {
  MetricSpecs : list MetricSpec
}.

Record MetricValue := mkMetricValue {
  Value_MetricName : string;
  Value_MetricValue : Z
}.

Record GetMetricsResponse := mkGetMetricsResponse {
  MetricValues : list MetricValue
}.

(** ** [strconv.Atoi]

    The Go standard library's [Atoi s] is [ParseInt(s, 10, 0)]: an
    optional sign, then one or more decimal digits, the value within the
    range of [int].  It answers a value and an error; the error is a
    [NumError] naming the function, the input and the cause. *)

Inductive NumErrorCause := ErrSyntax | ErrRange.

Record NumError := mkNumError {
  Func : string;
  Num : string;
  Err : NumErrorCause
}.

Definition intSize : Z := 64.
Definition maxUint64 : Z := 2 ^ 64 - 1.

Definition byte_of (c : ascii) : Z := Z.of_N (N_of_ascii c).

(** The digit loop of [ParseUint] in base 10 with 64 bits: [inl cause]
    when a byte is no digit or the value leaves [uint64]. *)
Fixpoint ParseUint_digits (s : string) (n : Z) : NumErrorCause + Z :=
  match s with
  | EmptyString => inr n
  | String c rest =>
      let b := byte_of c in
      if (48 <=? b) && (b <=? 57) then
        if n >=? maxUint64 / 10 + 1 then inl ErrRange
        else
          let n1 := n * 10 + (b - 48) in
          if n1 >? maxUint64 then inl ErrRange
          else ParseUint_digits rest n1
      else inl ErrSyntax
  end.

Definition ParseUint (s : string) : NumErrorCause + Z :=
  match s with
  | EmptyString => inl ErrSyntax
  | _ => ParseUint_digits s 0
  end.

Definition Atoi (s : string) : Z * option NumError :=
  let fail cause := Some (mkNumError "Atoi" s cause) in
  match s with
  | EmptyString => (0, fail ErrSyntax)
  | String c rest =>
      let neg := Ascii.eqb c "-"%char in
      let digits := if Ascii.eqb c "+"%char || neg then rest else s in
      let cutoff := 2 ^ (intSize - 1) in
      match ParseUint digits with
      | inl ErrSyntax => (0, fail ErrSyntax)
      | inl ErrRange =>
          if neg then (- cutoff, fail ErrRange)
          else (cutoff - 1, fail ErrRange)
      | inr un =>
          if negb neg && (un >=? cutoff) then (cutoff - 1, fail ErrRange)
          else if neg && (un >? cutoff) then (- cutoff, fail ErrRange)
          else (if neg then - un else un, None)
      end
  end.

(** ** Errors

    The program builds its errors with [fmt.Errorf] and hands the Redis
    client's error on untouched; one constructor per place an error is
    made. *)
Inductive error :=
| ListLengthParsingError (cause : NumError)
    (* fmt.Errorf of the list-length message with err.Error(), line 109 *)
| NoListNameGiven
    (* fmt.Errorf, no list name given, line 118 *)
| CannotFindScaler (name : string)
    (* fmt.Errorf, cannot find scaler, with the name; lines 156, 178, 206 *)
| RedisError (msg : string).
    (* the error of the Redis command, as the client reports it *)

(** A Go result pair (pointer, error) of which exactly one side is
    non-nil. *)
Inductive result (A : Type) :=
| Ok (a : A)
| Fail (e : error).
Arguments Ok {A} a.
Arguments Fail {A} e.

(** The three kinds of failure the specification names. *)
Definition ConfigurationError (e : error) : bool :=
  match e with
  | ListLengthParsingError _ | NoListNameGiven => true
  | _ => false
  end.

Definition NotRegistered (e : error) : bool :=
  match e with CannotFindScaler _ => true | _ => false end.

Definition StoreQueryError (e : error) : bool :=
  match e with RedisError _ => true | _ => false end.

(** ** [getScalerUniqueName] (lines 61-63) *)
Definition getScalerUniqueName (scaledObjectRef : ScaledObjectRef) : string :=
  Namespace scaledObjectRef +:+ "/" +:+ Name scaledObjectRef.

(** ** [parseRedisMetadata] (lines 102-132)

    The source fills a zero [RedisScaler] field by field and leaves at the
    first error; here each field is computed in the source's order and the
    struct is built at the end. *)
Definition parseRedisMetadata (metadata : gmap string string)
  : result RedisScaler :=
  let parsed :=
    match metadata !! "listLength" with
    | Some val =>
        let '(listLength, err) := Atoi val in
        match err with
        | Some e => Fail (ListLengthParsingError e)
        | None => Ok listLength
        end
    | None => Ok defaultTargetListLength
    end in
  match parsed with
  | Fail e => Fail e
  | Ok listLength =>
      match metadata !! "listName" with
      | None => Fail NoListNameGiven
      | Some name =>
          let addr :=
            match metadata !! "address" with
            | Some val =>
                if negb (String.eqb val EmptyString) then val
                else defaultRedisAddress
            | None => defaultRedisAddress
            end in
          let pass :=
            match metadata !! "password" with
            | Some val =>
                if negb (String.eqb val EmptyString) then val
                else defaultRedisPassword
            | None => defaultRedisPassword
            end in
          Ok (mkRedisScaler addr pass name listLength)
      end
  end.

(** ** The outside world: the logger and the Redis client

    A handler reads and writes the server's map, writes lines to the
    process-wide logger and, for the two measuring operations, calls the
    Redis client's LLen.  The world a handler runs in is the server
    together with the trace of what has been logged and of the calls made
    to the client so far.  The trace records the program's calls into the
    client library, not what the library puts on the network. *)

(** [redis.Options], the three fields the program sets (lines 210-214). *)
Record Options := mkOptions {
  Addr : string;
  Password : string;
  DB : Z
}.

(** [redis.IntCmd] once the command has run: [Err()] answers [cmd_err],
    [Result()] answers the pair of both fields. *)
Record IntCmd := mkIntCmd {
  cmd_val : Z;
  cmd_err : option string
}.

(** What the client's LLen reports for a client configured with the
    given options; the program cannot see more of the store than this. *)
Definition Redis := Options -> string -> IntCmd.

Inductive event :=
| LogPrintf (format : string) (arg : string)
| LogPrintln (v : option RedisScaler)
| LLenCall (opts : Options) (key : string).

Record World := mkWorld {
  srv : RedisExternalScalerServer;
  trace : list event
}.

Definition Go (A : Type) : Type := World -> A * World.

Definition ret {A} (a : A) : Go A := fun w => (a, w).

Definition bind {A B} (c : Go A) (k : A -> Go B) : Go B :=
  fun w => let '(a, w') := c w in k a w'.

Declare Scope go_scope.
Delimit Scope go_scope with go.
Notation "x <- c ;; k" := (bind c (fun x => k))
  (at level 100, c at next level, right associativity) : go_scope.
Notation "c ;; k" := (bind c (fun _ => k))
  (at level 100, right associativity) : go_scope.
Open Scope go_scope.

Definition log_Printf (format arg : string) : Go unit :=
  fun w => (tt, mkWorld (srv w) (trace w ++ [LogPrintf format arg])).

Definition log_Println (v : option RedisScaler) : Go unit :=
  fun w => (tt, mkWorld (srv w) (trace w ++ [LogPrintln v])).

Definition client_LLen (redis : Redis) (opts : Options) (key : string)
  : Go IntCmd :=
  fun w => (redis opts key, mkWorld (srv w) (trace w ++ [LLenCall opts key])).

(** Reading [s.scalers]; writing it. *)
Definition get_scalers : Go (option (gmap string RedisScaler)) :=
  fun w => (scalers (srv w), w).

Definition set_scalers (m : option (gmap string RedisScaler)) : Go unit :=
  fun w => (tt, mkWorld (mkServer m) (trace w)).

(** [s.scalers[name]] with the comma-ok form: a nil map has no key. *)
Definition map_index (m : option (gmap string RedisScaler)) (name : string)
  : option RedisScaler :=
  match m with
  | None => None
  | Some m => m !! name
  end.

(** [delete(s.scalers, name)]: nothing happens on a nil map. *)
Definition map_delete (m : option (gmap string RedisScaler)) (name : string)
  : option (gmap string RedisScaler) :=
  match m with
  | None => None
  | Some m => Some (delete name m)
  end.

(** The conversion [int64(x)] of a Go [int]: every [int] is an [int64]. *)
Definition int64_of_int (x : Z) : Z := x.

(** ** [getRedisListLength] (lines 209-223) *)
Definition getRedisListLength (redis : Redis)
    (address password listName : string) : Go (Z * option error) :=
  cmd <- client_LLen redis (mkOptions address password 0) listName ;;
  match cmd_err cmd with
  | Some e => ret (-1, Some (RedisError e))
  | None => ret (cmd_val cmd, RedisError <$> cmd_err cmd)
  end.

(** ** The handlers of [main.go] *)

(** [New] (lines 66-85). *)
Definition New (request : NewRequest) : Go (result Empty) :=
  s <- get_scalers ;;
  let m := match s with
           | None => ∅
           | Some m => m
           end in
  set_scalers (Some m) ;;
  let name := getScalerUniqueName (New_ScaledObjectRef request) in
  log_Printf "New() method called for %s" name ;;
  match parseRedisMetadata (Metadata request) with
  | Fail err => ret (Fail err)
  | Ok scaler =>
      set_scalers (Some (<[name := scaler]> m)) ;;
      log_Printf "New() method completed for %s" name ;;
      ret (Ok mkEmpty)
  end.

(** [Close] (lines 88-100). *)
Definition Close (request : ScaledObjectRef) : Go (result Empty) :=
  let name := getScalerUniqueName request in
  log_Printf "Close() method called for %s" name ;;
  s <- get_scalers ;;
  match map_index s name with
  | Some _ => set_scalers (map_delete s name)
  | None => ret tt
  end ;;
  log_Printf "Close() method completed for %s" name ;;
  ret (Ok mkEmpty).

(** [IsActive] (lines 135-157). *)
Definition IsActive (redis : Redis) (request : ScaledObjectRef)
  : Go (result IsActiveResponse) :=
  let name := getScalerUniqueName request in
  log_Printf "IsActive() method called for %s" name ;;
  s <- get_scalers ;;
  match map_index s name with
  | Some scalerRef =>
      r <- getRedisListLength redis (address scalerRef)
             (password scalerRef) (listName scalerRef) ;;
      match snd r with
      | Some err => ret (Fail err)
      | None =>
          log_Printf "IsActive() method Completed for %s" name ;;
          ret (Ok (mkIsActiveResponse (fst r >? 0)))
      end
  | None => ret (Fail (CannotFindScaler name))
  end.

(** [GetMetricSpec] (lines 160-179). *)
Definition GetMetricSpec (request : ScaledObjectRef)
  : Go (result GetMetricSpecResponse) :=
  let name := getScalerUniqueName request in
  log_Printf "GetMetricSpec() method called for %s" name ;;
  s <- get_scalers ;;
  match map_index s name with
  | Some scalerRef =>
      let spec := mkMetricSpec listLengthMetricName
                    (int64_of_int (listLength scalerRef)) in
      log_Printf "GetMetricSpec() method completed for %s" name ;;
      ret (Ok (mkGetMetricSpecResponse [spec]))
  | None => ret (Fail (CannotFindScaler name))
  end.

(** [GetMetrics] (lines 182-207). *)
Definition GetMetrics (redis : Redis) (request : GetMetricsRequest)
  : Go (result GetMetricsResponse) :=
  let name := getScalerUniqueName (GetMetrics_ScaledObjectRef request) in
  log_Printf "GetMetrics() method called for %s" name ;;
  s <- get_scalers ;;
  match map_index s name with
  | Some scalerRef =>
      r <- getRedisListLength redis (address scalerRef)
             (password scalerRef) (listName scalerRef) ;;
      match snd r with
      | Some err => ret (Fail err)
      | None =>
          let value := mkMetricValue listLengthMetricName (fst r) in
          log_Printf "GetMetrics() method completed for %s" name ;;
          ret (Ok (mkGetMetricsResponse [value]))
      end
  | None => ret (Fail (CannotFindScaler name))
  end.

(** ** The handlers of the earlier copy

    Same five handlers without the progress lines; [New] prints the entry
    stored under the fixed key default/sample once it has stored its own. *)
Module Plain.

Definition New (request : NewRequest) : Go (result Empty) :=
  s <- get_scalers ;;
  let m := match s with
           | None => ∅
           | Some m => m
           end in
  set_scalers (Some m) ;;
  let name := getScalerUniqueName (New_ScaledObjectRef request) in
  match parseRedisMetadata (Metadata request) with
  | Fail err => ret (Fail err)
  | Ok scaler =>
      set_scalers (Some (<[name := scaler]> m)) ;;
      s' <- get_scalers ;;
      log_Println (map_index s' "default/sample") ;;
      ret (Ok mkEmpty)
  end.

Definition Close (request : ScaledObjectRef) : Go (result Empty) :=
  let name := getScalerUniqueName request in
  s <- get_scalers ;;
  match map_index s name with
  | Some _ => set_scalers (map_delete s name)
  | None => ret tt
  end ;;
  ret (Ok mkEmpty).

Definition IsActive (redis : Redis) (request : ScaledObjectRef)
  : Go (result IsActiveResponse) :=
  let name := getScalerUniqueName request in
  s <- get_scalers ;;
  match map_index s name with
  | Some scalerRef =>
      r <- getRedisListLength redis (address scalerRef)
             (password scalerRef) (listName scalerRef) ;;
      match snd r with
      | Some err => ret (Fail err)
      | None => ret (Ok (mkIsActiveResponse (fst r >? 0)))
      end
  | None => ret (Fail (CannotFindScaler name))
  end.

Definition GetMetricSpec (request : ScaledObjectRef)
  : Go (result GetMetricSpecResponse) :=
  let name := getScalerUniqueName request in
  s <- get_scalers ;;
  match map_index s name with
  | Some scalerRef =>
      let spec := mkMetricSpec listLengthMetricName
                    (int64_of_int (listLength scalerRef)) in
      ret (Ok (mkGetMetricSpecResponse [spec]))
  | None => ret (Fail (CannotFindScaler name))
  end.

Definition GetMetrics (redis : Redis) (request : GetMetricsRequest)
  : Go (result GetMetricsResponse) :=
  let name := getScalerUniqueName (GetMetrics_ScaledObjectRef request) in
  s <- get_scalers ;;
  match map_index s name with
  | Some scalerRef =>
      r <- getRedisListLength redis (address scalerRef)
             (password scalerRef) (listName scalerRef) ;;
      match snd r with
      | Some err => ret (Fail err)
      | None =>
          let value := mkMetricValue listLengthMetricName (fst r) in
          ret (Ok (mkGetMetricsResponse [value]))
      end
  | None => ret (Fail (CannotFindScaler name))
  end.

End Plain.

(** ** Views of a world *)

(** The registry as a table: the nil map and the empty map hold the same
    (no) entries. *)
Definition registry (w : World) : gmap string RedisScaler :=
  match scalers (srv w) with
  | None => ∅
  | Some m => m
  end.

(** The calls to the client's LLen made so far, oldest first. *)
Definition queries (t : list event) : list (Options * string) :=
  omap (fun ev => match ev with
                  | LLenCall opts key => Some (opts, key)
                  | _ => None
                  end) t.

(** A freshly started server: [&RedisExternalScalerServer{}], nothing
    logged, nothing asked. *)
Definition start : World := mkWorld (mkServer None) [].

(** A Redis whose list has the given length, and one that fails. *)
Definition redis_len (n : Z) : Redis := fun _ _ => mkIntCmd n None.
Definition redis_down (msg : string) : Redis := fun _ _ => mkIntCmd 0 (Some msg).

(** Two outcomes that differ at most in what was logged: same answer,
    same server, same commands sent to Redis. *)
Definition same_but_log {A} (x y : A * World) : Prop :=
  fst x = fst y ∧ srv (snd x) = srv (snd y)
  ∧ queries (trace (snd x)) = queries (trace (snd y)).

(** ** Sample worlds *)

Definition worker : ScaledObjectRef := mkScaledObjectRef "default" "worker".

Definition jobs_metadata : gmap string string :=
  <["listName" := "jobs"]> (<["listLength" := "10"]> ∅).

Definition jobs_scaler : RedisScaler :=
  mkRedisScaler defaultRedisAddress defaultRedisPassword "jobs" 10.

(** The world after the worker has been registered on a fresh server. *)
Definition jobs_world : World :=
  snd (New (mkNewRequest worker jobs_metadata) start).

(** Metadata with an empty listName and a listLength that is no number. *)
Definition unnamed_bad_threshold : gmap string string :=
  <["listName" := EmptyString]> (<["listLength" := "abc"]> ∅).

(** ** Histories of calls

    The gRPC server hands every request of the service to the matching
    method of the one server value registered at start-up (line 43).  A
    history is a list of calls served one after the other, each paired
    with what Redis would answer while it is served. *)
Inductive call :=
| CallNew (request : NewRequest)
| CallClose (request : ScaledObjectRef)
| CallIsActive (request : ScaledObjectRef)
| CallGetMetricSpec (request : ScaledObjectRef)
| CallGetMetrics (request : GetMetricsRequest).

Inductive reply :=
| ReplyEmpty (r : result Empty)
| ReplyIsActive (r : result IsActiveResponse)
| ReplyGetMetricSpec (r : result GetMetricSpecResponse)
| ReplyGetMetrics (r : result GetMetricsResponse).

Definition serve (redis : Redis) (c : call) : Go reply :=
  match c with
  | CallNew request => r <- New request ;; ret (ReplyEmpty r)
  | CallClose request => r <- Close request ;; ret (ReplyEmpty r)
  | CallIsActive request =>
      r <- IsActive redis request ;; ret (ReplyIsActive r)
  | CallGetMetricSpec request =>
      r <- GetMetricSpec request ;; ret (ReplyGetMetricSpec r)
  | CallGetMetrics request =>
      r <- GetMetrics redis request ;; ret (ReplyGetMetrics r)
  end.

Fixpoint serve_all (history : list (Redis * call)) : Go (list reply) :=
  match history with
  | [] => ret []
  | (redis, c) :: rest =>
      r <- serve redis c ;;
      rs <- serve_all rest ;;
      ret (r :: rs)
  end.

(** The same for the earlier copy. *)
Definition Plain_serve (redis : Redis) (c : call) : Go reply :=
  match c with
  | CallNew request => r <- Plain.New request ;; ret (ReplyEmpty r)
  | CallClose request => r <- Plain.Close request ;; ret (ReplyEmpty r)
  | CallIsActive request =>
      r <- Plain.IsActive redis request ;; ret (ReplyIsActive r)
  | CallGetMetricSpec request =>
      r <- Plain.GetMetricSpec request ;; ret (ReplyGetMetricSpec r)
  | CallGetMetrics request =>
      r <- Plain.GetMetrics redis request ;; ret (ReplyGetMetrics r)
  end.

Fixpoint Plain_serve_all (history : list (Redis * call))
  : Go (list reply) :=
  match history with
  | [] => ret []
  | (redis, c) :: rest =>
      r <- Plain_serve redis c ;;
      rs <- Plain_serve_all rest ;;
      ret (r :: rs)
  end.

(** What one call does to the table of entries, read as a table only. *)
Definition registry_step (m : gmap string RedisScaler) (c : call)
  : gmap string RedisScaler :=
  match c with
  | CallNew request =>
      match parseRedisMetadata (Metadata request) with
      | Ok scaler =>
          <[getScalerUniqueName (New_ScaledObjectRef request) := scaler]> m
      | Fail _ => m
      end
  | CallClose request => delete (getScalerUniqueName request) m
  | _ => m
  end.

(** The call to the client's LLen a measuring call for the workload
    makes from a world: one, built from the entry, when there is an
    entry. *)
Definition llen_for (w : World) (request : ScaledObjectRef)
  : list (Options * string) :=
  match registry w !! getScalerUniqueName request with
  | Some scaler =>
      [(mkOptions (address scaler) (password scaler) 0, listName scaler)]
  | None => []
  end.

(** ** Predicates on strings and entries *)

Fixpoint has_slash (s : string) : bool :=
  match s with
  | EmptyString => false
  | String c rest => Ascii.eqb c "/"%char || has_slash rest
  end.

(** An entry as [parseRedisMetadata] makes them: stored under a key with
    a slash, with an address to connect to and a threshold that fits the
    64-bit [int]. *)
Definition well_formed_entry (key : string) (scaler : RedisScaler) : Prop :=
  has_slash key = true
  ∧ address scaler ≠ EmptyString
  ∧ - 2 ^ 63 <= listLength scaler < 2 ^ 63.

(** The four keys [parseRedisMetadata] reads. *)
Definition same_options (m1 m2 : gmap string string) : Prop :=
  m1 !! "listLength" = m2 !! "listLength"
  ∧ m1 !! "listName" = m2 !! "listName"
  ∧ m1 !! "address" = m2 !! "address"
  ∧ m1 !! "password" = m2 !! "password".

(** Further sample inputs. *)
Definition mail_metadata : gmap string string :=
  <["listName" := "mail"]> (<["listLength" := "-3"]> ∅).

Definition mailer : ScaledObjectRef := mkScaledObjectRef "default" "mailer".

Definition sample_history : list (Redis * call) :=
  [ (redis_len 0, CallNew (mkNewRequest worker jobs_metadata));
    (redis_len 3, CallIsActive worker);
    (redis_len 3, CallGetMetrics (mkGetMetricsRequest worker "any"));
    (redis_len 0, CallNew (mkNewRequest mailer mail_metadata));
    (redis_len 0, CallClose worker);
    (redis_down "timeout", CallIsActive mailer) ].

(** * Properties *)

(** ** The library model and the identity on samples *)

Example Atoi_10 : Atoi "10" = (10, None).
Proof. reflexivity. Qed.

Example Atoi_neg : Atoi "-42" = (-42, None).
Proof. reflexivity. Qed.

Example Atoi_plus : Atoi "+7" = (7, None).
Proof. reflexivity. Qed.

Example Atoi_max : Atoi "9223372036854775807" = (9223372036854775807, None).
Proof. vm_compute. reflexivity. Qed.

Example Atoi_min : Atoi "-9223372036854775808" = (-9223372036854775808, None).
Proof. vm_compute. reflexivity. Qed.

Example Atoi_over :
  snd (Atoi "9223372036854775808")
  = Some (mkNumError "Atoi" "9223372036854775808" ErrRange).
Proof. vm_compute. reflexivity. Qed.

Example Atoi_word : snd (Atoi "abc") = Some (mkNumError "Atoi" "abc" ErrSyntax).
Proof. reflexivity. Qed.

Example Atoi_empty :
  snd (Atoi EmptyString) = Some (mkNumError "Atoi" EmptyString ErrSyntax).
Proof. reflexivity. Qed.

Example Atoi_sign_only : snd (Atoi "-") = Some (mkNumError "Atoi" "-" ErrSyntax).
Proof. reflexivity. Qed.

Example Atoi_blank : snd (Atoi " 5") = Some (mkNumError "Atoi" " 5" ErrSyntax).
Proof. reflexivity. Qed.

Example getScalerUniqueName_sample :
  getScalerUniqueName (mkScaledObjectRef "default" "worker") = "default/worker".
Proof. reflexivity. Qed.

(** ** Running the monad by hand *)

Ltac go_steps :=
  unfold getRedisListLength, client_LLen, log_Printf, log_Println,
    get_scalers, set_scalers, bind, ret; cbn [fst snd srv trace scalers].

Lemma map_index_registry (w : World) (name : string) :
  map_index (scalers (srv w)) name = registry w !! name.
Proof.
  unfold map_index, registry.
  destruct (scalers (srv w)); [reflexivity | by rewrite lookup_empty].
Qed.

Lemma queries_app (t u : list event) :
  queries (t ++ u) = queries t ++ queries u.
Proof. unfold queries. apply omap_app. Qed.

Lemma queries_log (t : list event) (format arg : string) :
  queries (t ++ [LogPrintf format arg]) = queries t.
Proof. rewrite queries_app. cbn. apply app_nil_r. Qed.

(** ** What [getRedisListLength] answers *)

Lemma getRedisListLength_run (redis : Redis) (a p l : string) (w : World) :
  getRedisListLength redis a p l w =
  (match cmd_err (redis (mkOptions a p 0) l) with
   | Some e => (-1, Some (RedisError e))
   | None => (cmd_val (redis (mkOptions a p 0) l), None)
   end,
   mkWorld (srv w) (trace w ++ [LLenCall (mkOptions a p 0) l])).
Proof.
  go_steps. destruct (cmd_err (redis _ l)); reflexivity.
Qed.

(** ** What each handler does, case by case *)

Lemma IsActive_unregistered (redis : Redis) (request : ScaledObjectRef)
    (w : World) :
  registry w !! getScalerUniqueName request = None →
  IsActive redis request w =
  (Fail (CannotFindScaler (getScalerUniqueName request)),
   mkWorld (srv w)
     (trace w ++ [LogPrintf "IsActive() method called for %s"
                    (getScalerUniqueName request)])).
Proof.
  intros H. unfold IsActive. go_steps.
  rewrite map_index_registry, H. reflexivity.
Qed.

Lemma IsActive_registered (redis : Redis) (request : ScaledObjectRef)
    (w : World) (scaler : RedisScaler) :
  registry w !! getScalerUniqueName request = Some scaler →
  fst (IsActive redis request w) =
  let reply := redis (mkOptions (address scaler) (password scaler) 0)
                 (listName scaler) in
  match cmd_err reply with
  | Some msg => Fail (RedisError msg)
  | None => Ok (mkIsActiveResponse (cmd_val reply >? 0))
  end.
Proof.
  intros H. unfold IsActive. go_steps.
  rewrite map_index_registry, H. cbn.
  destruct (cmd_err (redis _ _)); reflexivity.
Qed.

Lemma GetMetricSpec_unregistered (request : ScaledObjectRef) (w : World) :
  registry w !! getScalerUniqueName request = None →
  GetMetricSpec request w =
  (Fail (CannotFindScaler (getScalerUniqueName request)),
   mkWorld (srv w)
     (trace w ++ [LogPrintf "GetMetricSpec() method called for %s"
                    (getScalerUniqueName request)])).
Proof.
  intros H. unfold GetMetricSpec. go_steps.
  rewrite map_index_registry, H. reflexivity.
Qed.

Lemma GetMetricSpec_registered (request : ScaledObjectRef) (w : World)
    (scaler : RedisScaler) :
  registry w !! getScalerUniqueName request = Some scaler →
  fst (GetMetricSpec request w) =
  Ok (mkGetMetricSpecResponse
        [mkMetricSpec listLengthMetricName (listLength scaler)]).
Proof.
  intros H. unfold GetMetricSpec. go_steps.
  rewrite map_index_registry, H. reflexivity.
Qed.

Lemma GetMetrics_unregistered (redis : Redis) (request : GetMetricsRequest)
    (w : World) :
  registry w !! getScalerUniqueName (GetMetrics_ScaledObjectRef request)
    = None →
  GetMetrics redis request w =
  (Fail (CannotFindScaler
           (getScalerUniqueName (GetMetrics_ScaledObjectRef request))),
   mkWorld (srv w)
     (trace w ++ [LogPrintf "GetMetrics() method called for %s"
                    (getScalerUniqueName
                       (GetMetrics_ScaledObjectRef request))])).
Proof.
  intros H. unfold GetMetrics. go_steps.
  rewrite map_index_registry, H. reflexivity.
Qed.

Lemma GetMetrics_registered (redis : Redis) (request : GetMetricsRequest)
    (w : World) (scaler : RedisScaler) :
  registry w !! getScalerUniqueName (GetMetrics_ScaledObjectRef request)
    = Some scaler →
  fst (GetMetrics redis request w) =
  let reply := redis (mkOptions (address scaler) (password scaler) 0)
                 (listName scaler) in
  match cmd_err reply with
  | Some msg => Fail (RedisError msg)
  | None =>
      Ok (mkGetMetricsResponse
            [mkMetricValue listLengthMetricName (cmd_val reply)])
  end.
Proof.
  intros H. unfold GetMetrics. go_steps.
  rewrite map_index_registry, H. cbn.
  destruct (cmd_err (redis _ _)); reflexivity.
Qed.

Lemma New_run (request : NewRequest) (w : World) :
  let name := getScalerUniqueName (New_ScaledObjectRef request) in
  let called := LogPrintf "New() method called for %s" name in
  New request w =
  match parseRedisMetadata (Metadata request) with
  | Fail err =>
      (Fail err, mkWorld (mkServer (Some (registry w))) (trace w ++ [called]))
  | Ok scaler =>
      (Ok mkEmpty,
       mkWorld (mkServer (Some (<[name := scaler]> (registry w))))
         ((trace w ++ [called])
            ++ [LogPrintf "New() method completed for %s" name]))
  end.
Proof.
  unfold New, registry. go_steps.
  destruct (parseRedisMetadata (Metadata request)); reflexivity.
Qed.

Lemma Close_run (request : ScaledObjectRef) (w : World) :
  let name := getScalerUniqueName request in
  Close request w =
  (Ok mkEmpty,
   mkWorld
     (match registry w !! name with
      | Some _ => mkServer (map_delete (scalers (srv w)) name)
      | None => srv w
      end)
     ((trace w ++ [LogPrintf "Close() method called for %s" name])
        ++ [LogPrintf "Close() method completed for %s" name])).
Proof.
  unfold Close. go_steps. rewrite map_index_registry.
  destruct (registry w !! _); reflexivity.
Qed.

(** ** What [parseRedisMetadata] accepts *)

(** The threshold the parser settles on: the default without the key,
    otherwise what [Atoi] makes of the value. *)
Lemma parseRedisMetadata_ok (metadata : gmap string string)
    (name : string) (n : Z) :
  metadata !! "listName" = Some name →
  match metadata !! "listLength" with
  | None => n = defaultTargetListLength
  | Some val => Atoi val = (n, None)
  end →
  ∃ scaler,
    parseRedisMetadata metadata = Ok scaler
    ∧ listName scaler = name
    ∧ listLength scaler = n
    ∧ (address scaler =
         match metadata !! "address" with
         | Some (String c val) => String c val
         | _ => defaultRedisAddress
         end)
    ∧ (password scaler =
         match metadata !! "password" with
         | Some val => val
         | None => EmptyString
         end).
Proof.
  intros Hname Hlen. unfold parseRedisMetadata.
  rewrite Hname.
  destruct (metadata !! "listLength") as [val|].
  - rewrite Hlen. eexists. split; [reflexivity|]. cbn.
    repeat split.
    + by destruct (metadata !! "address") as [[|??]|].
    + by destruct (metadata !! "password") as [[|??]|].
  - subst n. eexists. split; [reflexivity|]. cbn.
    repeat split.
    + by destruct (metadata !! "address") as [[|??]|].
    + by destruct (metadata !! "password") as [[|??]|].
Qed.

Lemma parseRedisMetadata_fails_iff (metadata : gmap string string) :
  (∃ e, parseRedisMetadata metadata = Fail e) ↔
  (∃ val, metadata !! "listLength" = Some val ∧ snd (Atoi val) ≠ None)
  ∨ metadata !! "listName" = None.
Proof.
  unfold parseRedisMetadata.
  destruct (metadata !! "listLength") as [val|] eqn:Hlen.
  - destruct (Atoi val) as [n [e|]] eqn:HA.
    + split; [|by eauto]. intros _. left. exists val. by rewrite HA.
    + destruct (metadata !! "listName") as [name|] eqn:Hname.
      * split; [by intros [? ?]|].
        intros [(v & Hv & Hbad)|?]; [|done].
        injection Hv as <-. by rewrite HA in Hbad.
      * split; [by right | by eauto].
  - destruct (metadata !! "listName") as [name|] eqn:Hname.
    + split; [by intros [? ?]|]. by intros [(v & ? & _)|?].
    + split; [by right | by eauto].
Qed.

Lemma parseRedisMetadata_Fail_kind (metadata : gmap string string)
    (e : error) :
  parseRedisMetadata metadata = Fail e → ConfigurationError e = true.
Proof.
  unfold parseRedisMetadata.
  destruct (metadata !! "listLength") as [val|].
  - destruct (Atoi val) as [n [e'|]].
    + by intros [= <-].
    + destruct (metadata !! "listName"); [done | by intros [= <-]].
  - destruct (metadata !! "listName"); [done | by intros [= <-]].
Qed.

(** ** Counting the entries under one key *)

Lemma entries_under_key (m : gmap string RedisScaler) (k : string)
    (v : RedisScaler) :
  m !! k = Some v →
  filter (λ kv : string * RedisScaler, kv.1 = k) (map_to_list m) = [(k, v)].
Proof.
  intros Hk.
  apply Permutation_singleton_r.
  rewrite <- (insert_delete_id m k v Hk) at 1.
  rewrite map_to_list_insert by apply lookup_delete_eq.
  rewrite filter_cons_True by reflexivity.
  apply Permutation_cons; [reflexivity|].
  assert (filter (λ kv : string * RedisScaler, kv.1 = k)
            (map_to_list (delete k m)) = []) as ->; [|reflexivity].
  destruct (filter _ _) as [|[k' v'] rest] eqn:E; [reflexivity|].
  assert ((k', v') ∈ filter (λ kv : string * RedisScaler, kv.1 = k)
            (map_to_list (delete k m))) as Hin by (rewrite E; left).
  apply list_elem_of_filter in Hin as [Hkey Hin]. cbn in Hkey. subst k'.
  apply elem_of_map_to_list in Hin. by rewrite lookup_delete_eq in Hin.
Qed.

(** ** The earlier copy against [main.go]

    For each handler the two copies answer the same, leave the same
    server and send the same commands to Redis. *)
Lemma Plain_New_agrees (request : NewRequest) (w : World) :
  same_but_log (Plain.New request w) (New request w).
Proof.
  unfold same_but_log, Plain.New, New. go_steps.
  destruct (parseRedisMetadata (Metadata request)); cbn;
    repeat rewrite queries_app; cbn; by rewrite ?app_nil_r.
Qed.

Lemma Plain_Close_agrees (request : ScaledObjectRef) (w : World) :
  same_but_log (Plain.Close request w) (Close request w).
Proof.
  unfold same_but_log, Plain.Close, Close. go_steps.
  destruct (map_index _ _); cbn;
    repeat rewrite queries_app; cbn; by rewrite ?app_nil_r.
Qed.

Lemma Plain_IsActive_agrees (redis : Redis) (request : ScaledObjectRef)
    (w : World) :
  same_but_log (Plain.IsActive redis request w) (IsActive redis request w).
Proof.
  unfold same_but_log, Plain.IsActive, IsActive. go_steps.
  destruct (map_index _ _) as [sc|]; cbn;
    [destruct (cmd_err (redis _ _)); cbn|];
    repeat rewrite queries_app; cbn; by rewrite ?app_nil_r.
Qed.

Lemma Plain_GetMetricSpec_agrees (request : ScaledObjectRef) (w : World) :
  same_but_log (Plain.GetMetricSpec request w) (GetMetricSpec request w).
Proof.
  unfold same_but_log, Plain.GetMetricSpec, GetMetricSpec. go_steps.
  destruct (map_index _ _) as [sc|]; cbn;
    repeat rewrite queries_app; cbn; by rewrite ?app_nil_r.
Qed.

Lemma Plain_GetMetrics_agrees (redis : Redis) (request : GetMetricsRequest)
    (w : World) :
  same_but_log (Plain.GetMetrics redis request w)
    (GetMetrics redis request w).
Proof.
  unfold same_but_log, Plain.GetMetrics, GetMetrics. go_steps.
  destruct (map_index _ _) as [sc|]; cbn;
    [destruct (cmd_err (redis _ _)); cbn|];
    repeat rewrite queries_app; cbn; by rewrite ?app_nil_r.
Qed.

Lemma jobs_world_registered :
  registry jobs_world !! getScalerUniqueName worker = Some jobs_scaler.
Proof. vm_compute. reflexivity. Qed.

(** The scenario of the specification, run on [main.go]. *)
Example scenario_active :
  fst (IsActive (redis_len 3) worker jobs_world)
  = Ok (mkIsActiveResponse true).
Proof. vm_compute. reflexivity. Qed.

Example scenario_spec :
  fst (GetMetricSpec worker jobs_world)
  = Ok (mkGetMetricSpecResponse [mkMetricSpec "RedisListLength" 10]).
Proof. vm_compute. reflexivity. Qed.

Example scenario_value :
  fst (GetMetrics (redis_len 3)
         (mkGetMetricsRequest worker "RedisListLength") jobs_world)
  = Ok (mkGetMetricsResponse [mkMetricValue "RedisListLength" 3]).
Proof. vm_compute. reflexivity. Qed.

Example scenario_closed :
  fst (IsActive (redis_len 3) worker (snd (Close worker jobs_world)))
  = Fail (CannotFindScaler "default/worker").
Proof. vm_compute. reflexivity. Qed.

(** ** [New] on metadata the parser accepts *)

Lemma New_ok (ref : ScaledObjectRef) (metadata : gmap string string)
    (w : World) (scaler : RedisScaler) :
  parseRedisMetadata metadata = Ok scaler →
  fst (New (mkNewRequest ref metadata) w) = Ok mkEmpty
  ∧ registry (snd (New (mkNewRequest ref metadata) w))
    = <[getScalerUniqueName ref := scaler]> (registry w).
Proof.
  intros Hp. rewrite New_run. cbn [Metadata New_ScaledObjectRef].
  rewrite Hp. split; reflexivity.
Qed.

(** ** The claims *)

(** C8. The identity of a workload is its namespace, a slash and its
    name, joined as they are; the same reference always yields the same
    identity. *)
Theorem getScalerUniqueName_spec (ns n : string) :
  getScalerUniqueName (mkScaledObjectRef ns n) = ns +:+ "/" +:+ n
  ∧ ∀ ref : ScaledObjectRef,
      Namespace ref = ns → Name ref = n →
      getScalerUniqueName ref = getScalerUniqueName (mkScaledObjectRef ns n).
Proof.
  split; [reflexivity|].
  intros [ns' n'] Hns Hn. cbn in Hns, Hn. by subst.
Qed.

(** C9. The metricName field of a GetMetrics request has no influence:
    two requests for the same workload that differ in it yield the same
    response, the same server and the same trace, in both copies of the
    program. *)
Theorem GetMetrics_ignores_metricName (redis : Redis)
    (ref : ScaledObjectRef) (metricName1 metricName2 : string) (w : World) :
  GetMetrics redis (mkGetMetricsRequest ref metricName1) w
  = GetMetrics redis (mkGetMetricsRequest ref metricName2) w
  ∧ Plain.GetMetrics redis (mkGetMetricsRequest ref metricName1) w
    = Plain.GetMetrics redis (mkGetMetricsRequest ref metricName2) w.
Proof. split; reflexivity. Qed.

(** C1. For a registered workload, IsActive answers false when the list
    length is 0 and true when it is positive; when the Redis command
    fails, the command's error is what the caller gets.  This holds of
    the IsActive of [main.go] and of the IsActive of the earlier copy. *)
Theorem IsActive_active_iff_nonempty (redis : Redis)
    (request : ScaledObjectRef) (w : World) (scaler : RedisScaler) :
  registry w !! getScalerUniqueName request = Some scaler →
  let reply := redis (mkOptions (address scaler) (password scaler) 0)
                 (listName scaler) in
  (cmd_err reply = None → cmd_val reply = 0 →
     fst (IsActive redis request w) = Ok (mkIsActiveResponse false))
  ∧ (cmd_err reply = None → 0 < cmd_val reply →
       fst (IsActive redis request w) = Ok (mkIsActiveResponse true))
  ∧ (∀ msg, cmd_err reply = Some msg →
       fst (IsActive redis request w) = Fail (RedisError msg)
       ∧ StoreQueryError (RedisError msg) = true)
  ∧ (cmd_err reply = None → cmd_val reply = 0 →
       fst (Plain.IsActive redis request w) = Ok (mkIsActiveResponse false))
  ∧ (cmd_err reply = None → 0 < cmd_val reply →
       fst (Plain.IsActive redis request w) = Ok (mkIsActiveResponse true))
  ∧ (∀ msg, cmd_err reply = Some msg →
       fst (Plain.IsActive redis request w) = Fail (RedisError msg)
       ∧ StoreQueryError (RedisError msg) = true).
Proof.
  intros Hreg reply.
  destruct (Plain_IsActive_agrees redis request w) as [-> _].
  rewrite (IsActive_registered redis request w scaler Hreg).
  cbv zeta. fold reply.
  assert (cmd_err reply = None → cmd_val reply = 0 →
          match cmd_err reply with
          | Some msg => Fail (RedisError msg)
          | None => Ok (mkIsActiveResponse (cmd_val reply >? 0))
          end = Ok (mkIsActiveResponse false)) as Hzero
    by (intros -> ->; reflexivity).
  assert (cmd_err reply = None → 0 < cmd_val reply →
          match cmd_err reply with
          | Some msg => Fail (RedisError msg)
          | None => Ok (mkIsActiveResponse (cmd_val reply >? 0))
          end = Ok (mkIsActiveResponse true)) as Hpos
    by (intros -> Hgt; do 2 f_equal; lia).
  assert (∀ msg, cmd_err reply = Some msg →
          match cmd_err reply with
          | Some msg => Fail (RedisError msg)
          | None => Ok (mkIsActiveResponse (cmd_val reply >? 0))
          end = Fail (RedisError msg)
          ∧ StoreQueryError (RedisError msg) = true) as Hfail
    by (intros msg ->; split; reflexivity).
  repeat split; solve [by apply Hzero | by apply Hpos | by apply Hfail].
Qed.

Lemma IsActive_active_iff_nonempty_witness :
  (fst (IsActive (redis_len 0) worker jobs_world)
   = Ok (mkIsActiveResponse false)
   ∧ fst (IsActive (redis_len 3) worker jobs_world)
     = Ok (mkIsActiveResponse true)
   ∧ fst (IsActive (redis_down "connection refused") worker jobs_world)
     = Fail (RedisError "connection refused"))
  ∧ (fst (Plain.IsActive (redis_len 0) worker jobs_world)
     = Ok (mkIsActiveResponse false)
     ∧ fst (Plain.IsActive (redis_len 3) worker jobs_world)
       = Ok (mkIsActiveResponse true)
     ∧ fst (Plain.IsActive (redis_down "connection refused") worker
              jobs_world)
       = Fail (RedisError "connection refused")).
Proof.
  destruct (IsActive_active_iff_nonempty (redis_len 0) worker jobs_world
              jobs_scaler) as (Hz & _ & _ & Hz' & _ & _);
    [vm_compute; reflexivity|].
  destruct (IsActive_active_iff_nonempty (redis_len 3) worker jobs_world
              jobs_scaler) as (_ & Hp & _ & _ & Hp' & _);
    [vm_compute; reflexivity|].
  destruct (IsActive_active_iff_nonempty (redis_down "connection refused")
              worker jobs_world jobs_scaler) as (_ & _ & Hf & _ & _ & Hf');
    [vm_compute; reflexivity|].
  cbv zeta in *.
  split; (split; [|split]).
  - apply Hz; reflexivity.
  - apply Hp; [reflexivity | cbn; lia].
  - apply (Hf "connection refused"); reflexivity.
  - apply Hz'; reflexivity.
  - apply Hp'; [reflexivity | cbn; lia].
  - apply (Hf' "connection refused"); reflexivity.
Defined.

(** C2. Against a workload with no entry, IsActive, GetMetricSpec and
    GetMetrics each fail with the cannot-find-scaler error, leave the
    server as it was and send nothing to Redis. *)
Theorem unregistered_query_fails (redis : Redis) (request : ScaledObjectRef)
    (metricName : string) (w : World) :
  registry w !! getScalerUniqueName request = None →
  let e := CannotFindScaler (getScalerUniqueName request) in
  let metrics := mkGetMetricsRequest request metricName in
  NotRegistered e = true
  ∧ (fst (IsActive redis request w) = Fail e
     ∧ srv (snd (IsActive redis request w)) = srv w
     ∧ queries (trace (snd (IsActive redis request w))) = queries (trace w))
  ∧ (fst (GetMetricSpec request w) = Fail e
     ∧ srv (snd (GetMetricSpec request w)) = srv w
     ∧ queries (trace (snd (GetMetricSpec request w))) = queries (trace w))
  ∧ (fst (GetMetrics redis metrics w) = Fail e
     ∧ srv (snd (GetMetrics redis metrics w)) = srv w
     ∧ queries (trace (snd (GetMetrics redis metrics w)))
       = queries (trace w)).
Proof.
  intros Hreg e metrics.
  rewrite (IsActive_unregistered redis request w Hreg).
  rewrite (GetMetricSpec_unregistered request w Hreg).
  rewrite (GetMetrics_unregistered redis metrics w Hreg).
  cbn [fst snd srv trace]. rewrite !queries_log.
  repeat split.
Qed.

Lemma unregistered_query_fails_witness :
  fst (IsActive (redis_len 3) worker start)
  = Fail (CannotFindScaler "default/worker")
  ∧ fst (GetMetricSpec worker start)
    = Fail (CannotFindScaler "default/worker")
  ∧ fst (GetMetrics (redis_len 3) (mkGetMetricsRequest worker "m") start)
    = Fail (CannotFindScaler "default/worker").
Proof.
  pose proof (unregistered_query_fails (redis_len 3) worker "m" start
                eq_refl) as H.
  cbv zeta in H. destruct H as (_ & (Ha & _) & (Hs & _) & (Hm & _)).
  split; [exact Ha | split; [exact Hs | exact Hm]].
Defined.

(** C3. New fails, and then with a configuration error, exactly when the
    metadata has a listLength that Atoi rejects or has no listName; and
    whenever New fails the registry holds the entries it held before. *)
Theorem New_fails_iff_bad_metadata (request : NewRequest) (w : World) :
  ((∃ e, fst (New request w) = Fail e ∧ ConfigurationError e = true) ↔
     (∃ val, Metadata request !! "listLength" = Some val
             ∧ snd (Atoi val) ≠ None)
     ∨ Metadata request !! "listName" = None)
  ∧ (∀ e, fst (New request w) = Fail e →
       ConfigurationError e = true
       ∧ registry (snd (New request w)) = registry w).
Proof.
  rewrite New_run. cbv zeta.
  pose proof (parseRedisMetadata_fails_iff (Metadata request)) as Hiff.
  pose proof (parseRedisMetadata_Fail_kind (Metadata request)) as Hkind.
  destruct (parseRedisMetadata (Metadata request)) as [scaler|err];
    cbn [fst snd].
  - split.
    + rewrite <- Hiff. split; [by intros (? & ? & _) | by intros [? ?]].
    + by intros e.
  - split.
    + rewrite <- Hiff. split; [by eauto|].
      intros _. exists err. by split; [|apply Hkind].
    + intros e [= <-]. by split; [apply Hkind|].
Qed.

Lemma New_fails_iff_bad_metadata_witness :
  fst (New (mkNewRequest worker (<["listLength" := "ten"]> jobs_metadata))
         jobs_world)
  = Fail (ListLengthParsingError (mkNumError "Atoi" "ten" ErrSyntax))
  ∧ registry
      (snd (New (mkNewRequest worker
                   (<["listLength" := "ten"]> jobs_metadata)) jobs_world))
    = registry jobs_world.
Proof.
  split; [vm_compute; reflexivity|].
  apply (New_fails_iff_bad_metadata
           (mkNewRequest worker (<["listLength" := "ten"]> jobs_metadata))
           jobs_world)
    with (e := ListLengthParsingError (mkNumError "Atoi" "ten" ErrSyntax)).
  vm_compute. reflexivity.
Defined.

(** C4. Registering a workload with valid metadata and then again with
    other valid metadata leaves exactly one entry under its identity, the
    one parsed from the second metadata; every other entry is as it was
    before the first registration. *)
Theorem New_twice_replaces (ref : ScaledObjectRef)
    (m1 m2 : gmap string string) (w : World) (e1 e2 : RedisScaler) :
  parseRedisMetadata m1 = Ok e1 →
  parseRedisMetadata m2 = Ok e2 →
  let name := getScalerUniqueName ref in
  let w1 := snd (New (mkNewRequest ref m1) w) in
  let out := New (mkNewRequest ref m2) w1 in
  fst (New (mkNewRequest ref m1) w) = Ok mkEmpty
  ∧ fst out = Ok mkEmpty
  ∧ registry (snd out) !! name = Some e2
  ∧ filter (λ kv : string * RedisScaler, kv.1 = name)
      (map_to_list (registry (snd out))) = [(name, e2)]
  ∧ registry (snd out) = <[name := e2]> (registry w).
Proof.
  intros H1 H2 name w1 out.
  destruct (New_ok ref m1 w e1 H1) as [Hr1 Hw1].
  destruct (New_ok ref m2 w1 e2 H2) as [Hr2 Hw2].
  fold name in Hw1, Hw2. fold out in Hr2, Hw2. fold w1 in Hw1.
  assert (registry (snd out) = <[name := e2]> (registry w)) as Hfinal.
  { rewrite Hw2, Hw1. apply insert_insert_eq. }
  assert (registry (snd out) !! name = Some e2) as Hlook.
  { rewrite Hfinal. apply lookup_insert_eq. }
  repeat split; try assumption.
  by apply entries_under_key.
Qed.

Lemma New_twice_replaces_witness :
  registry
    (snd (New (mkNewRequest worker jobs_metadata)
            (snd (New (mkNewRequest worker
                         (<["address" := "redis:6379"]>
                            (<["listName" := "mail"]> ∅))) start))))
  !! "default/worker" = Some jobs_scaler.
Proof.
  apply (New_twice_replaces worker
           (<["address" := "redis:6379"]> (<["listName" := "mail"]> ∅))
           jobs_metadata start
           (mkRedisScaler "redis:6379" defaultRedisPassword "mail" 5)
           jobs_scaler);
    vm_compute; reflexivity.
Defined.

(** C5. Metadata with a listName and without a listLength is accepted,
    and the stored entry has threshold 5. *)
Theorem New_default_threshold (ref : ScaledObjectRef)
    (metadata : gmap string string) (w : World) (name : string) :
  metadata !! "listName" = Some name →
  metadata !! "listLength" = None →
  let out := New (mkNewRequest ref metadata) w in
  fst out = Ok mkEmpty
  ∧ ∃ scaler, registry (snd out) !! getScalerUniqueName ref = Some scaler
              ∧ listLength scaler = 5
              ∧ listName scaler = name.
Proof.
  intros Hname Hlen out.
  destruct (parseRedisMetadata_ok metadata name defaultTargetListLength Hname)
    as (scaler & Hp & Hn & Hl & _); [by rewrite Hlen|].
  destruct (New_ok ref metadata w scaler Hp) as [Hr Hw].
  split; [exact Hr|]. exists scaler. subst out. rewrite Hw.
  by rewrite lookup_insert_eq.
Qed.

Lemma New_default_threshold_witness :
  ∃ scaler,
    registry (snd (New (mkNewRequest worker (<["listName" := "mail"]> ∅))
                     start)) !! getScalerUniqueName worker = Some scaler
    ∧ listLength scaler = 5
    ∧ listName scaler = "mail".
Proof.
  apply (New_default_threshold worker (<["listName" := "mail"]> ∅) start
           "mail"); vm_compute; reflexivity.
Defined.

(** C6. For a registered workload GetMetricSpec answers exactly one
    metric, named by the constant and with the entry's threshold as its
    target; every GetMetrics that succeeds for the same workload answers
    exactly one value under the same name, whatever the request's
    metricName. *)
Theorem metric_name_correlation (request : ScaledObjectRef) (w : World)
    (scaler : RedisScaler) :
  registry w !! getScalerUniqueName request = Some scaler →
  fst (GetMetricSpec request w)
  = Ok (mkGetMetricSpecResponse
          [mkMetricSpec listLengthMetricName (listLength scaler)])
  ∧ ∀ (redis : Redis) (metricName : string) (response : GetMetricsResponse),
      fst (GetMetrics redis (mkGetMetricsRequest request metricName) w)
      = Ok response →
      ∃ value,
        MetricValues response = [mkMetricValue listLengthMetricName value].
Proof.
  intros Hreg. split; [by apply GetMetricSpec_registered|].
  intros redis metricName response.
  rewrite (GetMetrics_registered redis
             (mkGetMetricsRequest request metricName) w scaler Hreg).
  cbv zeta.
  destruct (cmd_err (redis _ _)); [done|].
  intros [= <-]. by eexists.
Qed.

Lemma metric_name_correlation_witness :
  fst (GetMetricSpec worker jobs_world)
  = Ok (mkGetMetricSpecResponse [mkMetricSpec listLengthMetricName 10])
  ∧ ∃ value,
      [mkMetricValue "RedisListLength" 3]
      = [mkMetricValue listLengthMetricName value].
Proof.
  destruct (metric_name_correlation worker jobs_world jobs_scaler)
    as [Hspec Hvalue]; [vm_compute; reflexivity|].
  split; [exact Hspec|].
  apply (Hvalue (redis_len 3) "anything"
           (mkGetMetricsResponse [mkMetricValue "RedisListLength" 3])).
  vm_compute. reflexivity.
Defined.

(** C7. Close always answers the empty acknowledgement.  Afterwards the
    registry is the old one without the workload's entry; when there was
    no entry the server is left exactly as it was. *)
Theorem Close_removes_or_noop (request : ScaledObjectRef) (w : World) :
  let name := getScalerUniqueName request in
  let out := Close request w in
  fst out = Ok mkEmpty
  ∧ registry (snd out) !! name = None
  ∧ registry (snd out) = delete name (registry w)
  ∧ (registry w !! name = None → srv (snd out) = srv w).
Proof.
  intros name out. subst out. rewrite Close_run. cbv zeta. fold name.
  cbn [fst snd].
  assert (registry
            (mkWorld
               (match registry w !! name with
                | Some _ => mkServer (map_delete (scalers (srv w)) name)
                | None => srv w
                end)
               ((trace w ++ [LogPrintf "Close() method called for %s" name])
                  ++ [LogPrintf "Close() method completed for %s" name]))
          = delete name (registry w)) as Hdel.
  { destruct (registry w !! name) as [scaler|] eqn:Hreg.
    - unfold registry in *. cbn. destruct (scalers (srv w)); [done|].
      by rewrite lookup_empty in Hreg.
    - unfold registry at 1. cbn [srv]. fold (registry w).
      symmetry. by apply delete_id. }
  split; [reflexivity|]. split; [|split].
  - rewrite Hdel. apply lookup_delete_eq.
  - exact Hdel.
  - by intros ->.
Qed.

Lemma Close_removes_or_noop_witness :
  registry (snd (Close worker jobs_world)) !! "default/worker" = None
  ∧ srv (snd (Close worker start)) = srv start.
Proof.
  split.
  - apply (Close_removes_or_noop worker jobs_world).
  - apply (Close_removes_or_noop worker start). reflexivity.
Defined.

(** C10, as stated, fails: metadata whose listName is the empty string
    and whose listLength is no number is refused at the listLength check,
    before the listName is looked at, and nothing is stored. *)
Lemma New_empty_listName_can_fail :
  unnamed_bad_threshold !! "listName" = Some EmptyString
  ∧ fst (New (mkNewRequest worker unnamed_bad_threshold) start)
    = Fail (ListLengthParsingError (mkNumError "Atoi" "abc" ErrSyntax))
  ∧ registry (snd (New (mkNewRequest worker unnamed_bad_threshold) start))
    !! getScalerUniqueName worker = None.
Proof. repeat split; vm_compute; reflexivity. Qed.

(** C10, amended.  Metadata whose listName is present and empty, and
    whose listLength is absent or accepted by Atoi, is accepted: the
    stored entry has the empty queue name.  An empty address or password
    in the same metadata is replaced by its default. *)
Theorem New_accepts_empty_listName (ref : ScaledObjectRef)
    (metadata : gmap string string) (w : World) :
  metadata !! "listName" = Some EmptyString →
  (metadata !! "listLength" = None
   ∨ ∃ val, metadata !! "listLength" = Some val ∧ snd (Atoi val) = None) →
  let out := New (mkNewRequest ref metadata) w in
  fst out = Ok mkEmpty
  ∧ ∃ scaler,
      registry (snd out) !! getScalerUniqueName ref = Some scaler
      ∧ listName scaler = EmptyString
      ∧ (metadata !! "address" = Some EmptyString →
         address scaler = defaultRedisAddress)
      ∧ (metadata !! "password" = Some EmptyString →
         password scaler = defaultRedisPassword).
Proof.
  intros Hname Hlen out.
  assert (∃ n, match metadata !! "listLength" with
               | None => n = defaultTargetListLength
               | Some val => Atoi val = (n, None)
               end) as [n Hn].
  { destruct Hlen as [-> | (val & -> & Hval)]; [by eexists|].
    exists (fst (Atoi val)). destruct (Atoi val); cbn in *. by subst. }
  destruct (parseRedisMetadata_ok metadata EmptyString n Hname Hn)
    as (scaler & Hp & Hq & _ & Ha & Hpw).
  destruct (New_ok ref metadata w scaler Hp) as [Hr Hw].
  split; [exact Hr|]. exists scaler. subst out. rewrite Hw.
  split; [apply lookup_insert_eq|]. split; [exact Hq|]. split.
  - intros Hempty. by rewrite Ha, Hempty.
  - intros Hempty. by rewrite Hpw, Hempty.
Qed.

Lemma New_accepts_empty_listName_witness :
  ∃ scaler,
    registry
      (snd (New (mkNewRequest worker
                   (<["address" := EmptyString]>
                      (<["listName" := EmptyString]> ∅))) start))
    !! getScalerUniqueName worker = Some scaler
    ∧ listName scaler = EmptyString
    ∧ address scaler = defaultRedisAddress.
Proof.
  destruct (New_accepts_empty_listName worker
              (<["address" := EmptyString]>
                 (<["listName" := EmptyString]> ∅)) start)
    as (_ & scaler & Hreg & Hname & Haddr & _).
  - vm_compute. reflexivity.
  - left. vm_compute. reflexivity.
  - exists scaler. split; [exact Hreg|]. split; [exact Hname|].
    apply Haddr. vm_compute. reflexivity.
Defined.

(** ** Further facts *)

(** The handlers see the server only through its table of entries: a nil
    map and an empty one cannot be told apart. *)
Lemma handlers_see_registry_only (redis : Redis) (w w' : World) :
  registry w = registry w' →
  (∀ r, fst (IsActive redis r w) = fst (IsActive redis r w'))
  ∧ (∀ r, fst (GetMetricSpec r w) = fst (GetMetricSpec r w'))
  ∧ (∀ r, fst (GetMetrics redis r w) = fst (GetMetrics redis r w'))
  ∧ (∀ r, fst (New r w) = fst (New r w')
          ∧ registry (snd (New r w)) = registry (snd (New r w')))
  ∧ (∀ r, fst (Close r w) = fst (Close r w')
          ∧ registry (snd (Close r w)) = registry (snd (Close r w'))).
Proof.
  intros Heq. repeat split.
  - intros r. destruct (registry w !! getScalerUniqueName r) as [sc|] eqn:E.
    + rewrite (IsActive_registered redis r w sc E).
      rewrite Heq in E. by rewrite (IsActive_registered redis r w' sc E).
    + rewrite (IsActive_unregistered redis r w E).
      rewrite Heq in E. by rewrite (IsActive_unregistered redis r w' E).
  - intros r. destruct (registry w !! getScalerUniqueName r) as [sc|] eqn:E.
    + rewrite (GetMetricSpec_registered r w sc E).
      rewrite Heq in E. by rewrite (GetMetricSpec_registered r w' sc E).
    + rewrite (GetMetricSpec_unregistered r w E).
      rewrite Heq in E. by rewrite (GetMetricSpec_unregistered r w' E).
  - intros r.
    destruct (registry w
                !! getScalerUniqueName (GetMetrics_ScaledObjectRef r))
      as [sc|] eqn:E.
    + rewrite (GetMetrics_registered redis r w sc E).
      rewrite Heq in E. by rewrite (GetMetrics_registered redis r w' sc E).
    + rewrite (GetMetrics_unregistered redis r w E).
      rewrite Heq in E. by rewrite (GetMetrics_unregistered redis r w' E).
  - rewrite !New_run. cbv zeta.
    by destruct (parseRedisMetadata (Metadata r)).
  - rewrite !New_run. cbv zeta. rewrite Heq.
    by destruct (parseRedisMetadata (Metadata r)).
  - by rewrite !Close_run.
  - pose proof (Close_run r w) as Hw. pose proof (Close_run r w') as Hw'.
    cbv zeta in Hw, Hw'. rewrite Hw, Hw'. cbn [snd].
    rewrite <- Heq.
    destruct (registry w !! getScalerUniqueName r) eqn:E; [|exact Heq].
    unfold registry in *. cbn.
    destruct (scalers (srv w)) as [m|], (scalers (srv w')) as [m'|];
      cbn in *; subst; try done.
Qed.

(** A failing New on a fresh server allocates the map and stores nothing:
    the one change a failed registration can make. *)
Example New_failure_allocates :
  srv (snd (New (mkNewRequest worker ∅) start)) = mkServer (Some ∅)
  ∧ fst (New (mkNewRequest worker ∅) start) = Fail NoListNameGiven.
Proof. split; vm_compute; reflexivity. Qed.

(** Activity in the earlier copy, read off the agreement with [main.go]. *)
Lemma Plain_IsActive_registered (redis : Redis) (request : ScaledObjectRef)
    (w : World) (scaler : RedisScaler) :
  registry w !! getScalerUniqueName request = Some scaler →
  fst (Plain.IsActive redis request w) =
  let reply := redis (mkOptions (address scaler) (password scaler) 0)
                 (listName scaler) in
  match cmd_err reply with
  | Some msg => Fail (RedisError msg)
  | None => Ok (mkIsActiveResponse (cmd_val reply >? 0))
  end.
Proof.
  intros Hreg.
  destruct (Plain_IsActive_agrees redis request w) as [-> _].
  by apply IsActive_registered.
Qed.

(** A negative length, which Redis never reports, would count as idle. *)
Example IsActive_negative :
  fst (IsActive (redis_len (-1)) worker jobs_world)
  = Ok (mkIsActiveResponse false).
Proof. vm_compute. reflexivity. Qed.

(** What counts as a number is what Atoi accepts: a decimal literal one
    past the largest 64-bit int is refused like any other bad threshold. *)
Example New_rejects_out_of_range :
  fst (New (mkNewRequest worker
              (<["listLength" := "9223372036854775808"]> jobs_metadata))
         start)
  = Fail (ListLengthParsingError
            (mkNumError "Atoi" "9223372036854775808" ErrRange)).
Proof. vm_compute. reflexivity. Qed.

(** * More of the program's behaviour *)

(** ** Helper facts *)

Lemma registry_srv (w w' : World) : srv w = srv w' → registry w = registry w'.
Proof. unfold registry. by intros ->. Qed.

Lemma New_registry (request : NewRequest) (w : World) :
  registry (snd (New request w)) = registry_step (registry w) (CallNew request).
Proof.
  rewrite New_run. cbv zeta. cbn [registry_step].
  by destruct (parseRedisMetadata (Metadata request)).
Qed.

Lemma Close_registry (request : ScaledObjectRef) (w : World) :
  registry (snd (Close request w))
  = delete (getScalerUniqueName request) (registry w).
Proof.
  rewrite Close_run. cbv zeta. cbn [snd].
  destruct (registry w !! getScalerUniqueName request) as [scaler|] eqn:Hreg.
  - unfold registry in *. cbn. destruct (scalers (srv w)); [done|].
    by rewrite lookup_empty in Hreg.
  - unfold registry at 1. cbn [srv]. fold (registry w).
    symmetry. by apply delete_id.
Qed.

Lemma IsActive_srv (redis : Redis) (request : ScaledObjectRef) (w : World) :
  srv (snd (IsActive redis request w)) = srv w.
Proof.
  unfold IsActive. go_steps.
  destruct (map_index _ _); [|reflexivity].
  cbn. by destruct (cmd_err (redis _ _)).
Qed.

Lemma GetMetricSpec_srv (request : ScaledObjectRef) (w : World) :
  srv (snd (GetMetricSpec request w)) = srv w.
Proof.
  unfold GetMetricSpec. go_steps. by destruct (map_index _ _).
Qed.

Lemma GetMetrics_srv (redis : Redis) (request : GetMetricsRequest)
    (w : World) :
  srv (snd (GetMetrics redis request w)) = srv w.
Proof.
  unfold GetMetrics. go_steps.
  destruct (map_index _ _); [|reflexivity].
  cbn. by destruct (cmd_err (redis _ _)).
Qed.

(** A measuring or describing call looks at one key of the table only. *)
Lemma IsActive_lookup_only (redis : Redis) (request : ScaledObjectRef)
    (w w' : World) :
  registry w !! getScalerUniqueName request
  = registry w' !! getScalerUniqueName request →
  fst (IsActive redis request w) = fst (IsActive redis request w').
Proof.
  intros Heq.
  destruct (registry w !! getScalerUniqueName request) as [sc|] eqn:E;
    symmetry in Heq.
  - by rewrite (IsActive_registered redis request w sc E),
      (IsActive_registered redis request w' sc Heq).
  - by rewrite (IsActive_unregistered redis request w E),
      (IsActive_unregistered redis request w' Heq).
Qed.

Lemma GetMetricSpec_lookup_only (request : ScaledObjectRef) (w w' : World) :
  registry w !! getScalerUniqueName request
  = registry w' !! getScalerUniqueName request →
  fst (GetMetricSpec request w) = fst (GetMetricSpec request w').
Proof.
  intros Heq.
  destruct (registry w !! getScalerUniqueName request) as [sc|] eqn:E;
    symmetry in Heq.
  - by rewrite (GetMetricSpec_registered request w sc E),
      (GetMetricSpec_registered request w' sc Heq).
  - by rewrite (GetMetricSpec_unregistered request w E),
      (GetMetricSpec_unregistered request w' Heq).
Qed.

Lemma GetMetrics_lookup_only (redis : Redis) (request : GetMetricsRequest)
    (w w' : World) :
  registry w !! getScalerUniqueName (GetMetrics_ScaledObjectRef request)
  = registry w' !! getScalerUniqueName (GetMetrics_ScaledObjectRef request) →
  fst (GetMetrics redis request w) = fst (GetMetrics redis request w').
Proof.
  intros Heq.
  destruct (registry w
              !! getScalerUniqueName (GetMetrics_ScaledObjectRef request))
    as [sc|] eqn:E; symmetry in Heq.
  - by rewrite (GetMetrics_registered redis request w sc E),
      (GetMetrics_registered redis request w' sc Heq).
  - by rewrite (GetMetrics_unregistered redis request w E),
      (GetMetrics_unregistered redis request w' Heq).
Qed.

Lemma append_nil_l (b : string) : EmptyString +:+ b = b.
Proof. reflexivity. Qed.

Lemma append_cons (x : ascii) (a b : string) :
  String x a +:+ b = String x (a +:+ b).
Proof. reflexivity. Qed.

Lemma append_assoc (a b c : string) : (a +:+ b) +:+ c = a +:+ (b +:+ c).
Proof.
  induction a as [|x a IH]; [reflexivity|].
  rewrite !append_cons. by rewrite IH.
Qed.

Lemma append_longer (a b : string) : a +:+ "/" +:+ b ≠ a.
Proof.
  induction a as [|x a IH]; [done|].
  rewrite append_cons. intros [= H]. by apply IH.
Qed.

Lemma has_slash_append (a b : string) :
  has_slash (a +:+ "/" +:+ b) = true.
Proof.
  induction a as [|x a IH]; [reflexivity|].
  rewrite append_cons. cbn [has_slash]. rewrite IH. apply orb_true_r.
Qed.

Lemma split_at_first_slash (a1 b1 a2 b2 : string) :
  has_slash a1 = false → has_slash a2 = false →
  a1 +:+ "/" +:+ b1 = a2 +:+ "/" +:+ b2 → a1 = a2 ∧ b1 = b2.
Proof.
  revert a2. induction a1 as [|x a1 IH]; intros [|y a2] H1 H2 Heq;
    rewrite ?append_cons, ?append_nil_l in Heq; cbn [has_slash] in *.
  - by injection Heq as ->.
  - injection Heq as <- _. by rewrite Ascii.eqb_refl in H2.
  - injection Heq as -> _. by rewrite Ascii.eqb_refl in H1.
  - injection Heq as -> Heq.
    apply orb_false_elim in H1 as [_ H1]. apply orb_false_elim in H2 as [_ H2].
    destruct (IH a2 H1 H2 Heq) as [-> ->]. done.
Qed.

(** ** Workload identities *)

(** X1. Two references whose namespaces hold no slash have the same
    identity only if they are the same reference. *)
Theorem identity_injective_without_slash (r1 r2 : ScaledObjectRef) :
  has_slash (Namespace r1) = false →
  has_slash (Namespace r2) = false →
  getScalerUniqueName r1 = getScalerUniqueName r2 →
  r1 = r2.
Proof.
  destruct r1 as [ns1 n1], r2 as [ns2 n2]. unfold getScalerUniqueName. cbn.
  intros H1 H2 Heq.
  by destruct (split_at_first_slash ns1 n1 ns2 n2 H1 H2 Heq) as [-> ->].
Qed.

Lemma identity_injective_without_slash_witness :
  mkScaledObjectRef "default" ("work" +:+ "er") = worker.
Proof.
  apply (identity_injective_without_slash
           (mkScaledObjectRef "default" ("work" +:+ "er")) worker);
    reflexivity.
Defined.

(** X2. A slash in the namespace breaks this: the references (a/b, c)
    and (a, b/c) are different and share one identity, so an entry stored
    for the first is the one described for the second and the one removed
    by closing the second. *)
Theorem identity_collision_shares_entry (a b c : string)
    (metadata : gmap string string) (w : World) (scaler : RedisScaler) :
  parseRedisMetadata metadata = Ok scaler →
  let r1 := mkScaledObjectRef (a +:+ "/" +:+ b) c in
  let r2 := mkScaledObjectRef a (b +:+ "/" +:+ c) in
  let w1 := snd (New (mkNewRequest r1 metadata) w) in
  r1 ≠ r2
  ∧ getScalerUniqueName r1 = getScalerUniqueName r2
  ∧ fst (GetMetricSpec r2 w1)
    = Ok (mkGetMetricSpecResponse
            [mkMetricSpec listLengthMetricName (listLength scaler)])
  ∧ registry (snd (Close r2 w1)) !! getScalerUniqueName r1 = None.
Proof.
  intros Hp r1 r2 w1.
  assert (getScalerUniqueName r1 = getScalerUniqueName r2) as Hid.
  { unfold getScalerUniqueName, r1, r2. cbn [Namespace Name].
    by rewrite !append_assoc. }
  assert (registry w1 !! getScalerUniqueName r2 = Some scaler) as Hreg.
  { unfold w1. rewrite (proj2 (New_ok r1 metadata w scaler Hp)), Hid.
    apply lookup_insert_eq. }
  split; [|split; [exact Hid | split]].
  - unfold r1, r2. intros [= Ha _]. by apply (append_longer a b).
  - by apply GetMetricSpec_registered.
  - rewrite Close_registry, Hid. apply lookup_delete_eq.
Qed.

Lemma identity_collision_shares_entry_witness :
  getScalerUniqueName (mkScaledObjectRef ("team" +:+ "/" +:+ "blue") "api")
  = getScalerUniqueName (mkScaledObjectRef "team" ("blue" +:+ "/" +:+ "api")).
Proof.
  apply (identity_collision_shares_entry "team" "blue" "api" jobs_metadata
           start jobs_scaler).
  vm_compute. reflexivity.
Defined.

(** ** Registering, closing and asking, one after the other *)

(** X3. The threshold written in the metadata is the target size that is
    described afterwards, whatever its sign: New checks that listLength is
    a number and nothing more. *)
Theorem registered_threshold_is_described (ref : ScaledObjectRef)
    (metadata : gmap string string) (w : World) (name val : string) (n : Z) :
  metadata !! "listName" = Some name →
  metadata !! "listLength" = Some val →
  Atoi val = (n, None) →
  fst (GetMetricSpec ref (snd (New (mkNewRequest ref metadata) w)))
  = Ok (mkGetMetricSpecResponse [mkMetricSpec listLengthMetricName n]).
Proof.
  intros Hname Hlen HA.
  destruct (parseRedisMetadata_ok metadata name n Hname)
    as (scaler & Hp & _ & Hn & _); [by rewrite Hlen|].
  rewrite (GetMetricSpec_registered ref _ scaler); [by rewrite Hn|].
  rewrite (proj2 (New_ok ref metadata w scaler Hp)).
  apply lookup_insert_eq.
Qed.

Lemma registered_threshold_is_described_witness :
  fst (GetMetricSpec worker
         (snd (New (mkNewRequest worker mail_metadata) jobs_world)))
  = Ok (mkGetMetricSpecResponse [mkMetricSpec listLengthMetricName (-3)]).
Proof.
  apply (registered_threshold_is_described worker mail_metadata jobs_world
           "mail" "-3" (-3)); vm_compute; reflexivity.
Defined.

(** X4. For a workload without an entry, New followed by Close leaves
    the entries as they were, whether New accepted the metadata or not. *)
Theorem New_then_Close_restores (request : NewRequest) (w : World) :
  registry w !! getScalerUniqueName (New_ScaledObjectRef request) = None →
  registry (snd (Close (New_ScaledObjectRef request) (snd (New request w))))
  = registry w.
Proof.
  intros Hfree. rewrite Close_registry, New_registry. cbn [registry_step].
  destruct (parseRedisMetadata (Metadata request)).
  - rewrite delete_insert_eq. by apply delete_id.
  - by apply delete_id.
Qed.

Lemma New_then_Close_restores_witness :
  registry (snd (Close worker
                   (snd (New (mkNewRequest worker jobs_metadata) start))))
  = registry start.
Proof.
  apply (New_then_Close_restores (mkNewRequest worker jobs_metadata) start).
  vm_compute. reflexivity.
Defined.

(** X5. Close twice is Close once: the second Close finds no entry and
    leaves the server exactly as the first one left it. *)
Theorem Close_idempotent (request : ScaledObjectRef) (w : World) :
  srv (snd (Close request (snd (Close request w))))
  = srv (snd (Close request w))
  ∧ fst (Close request (snd (Close request w))) = Ok mkEmpty.
Proof.
  pose proof (Close_registry request w) as Hdel.
  pose proof (Close_run request (snd (Close request w))) as Hrun.
  cbv zeta in Hrun. rewrite Hrun. cbn [fst snd srv].
  rewrite Hdel, lookup_delete_eq. done.
Qed.

(** X6. After Close, whatever the server held before, the three queries
    for that workload fail with the cannot-find-scaler error and nothing
    is asked of Redis. *)
Theorem closed_workload_is_unknown (redis : Redis)
    (request : ScaledObjectRef) (metricName : string) (w : World) :
  let w' := snd (Close request w) in
  let e := CannotFindScaler (getScalerUniqueName request) in
  fst (IsActive redis request w') = Fail e
  ∧ fst (GetMetricSpec request w') = Fail e
  ∧ fst (GetMetrics redis (mkGetMetricsRequest request metricName) w')
    = Fail e
  ∧ queries (trace (snd (IsActive redis request w'))) = queries (trace w)
  ∧ queries
      (trace (snd (GetMetrics redis
                     (mkGetMetricsRequest request metricName) w')))
    = queries (trace w).
Proof.
  intros w' e.
  assert (registry w' !! getScalerUniqueName request = None) as Hgone.
  { unfold w'. rewrite Close_registry. apply lookup_delete_eq. }
  assert (queries (trace w') = queries (trace w)) as Hq.
  { unfold w'. rewrite Close_run. cbv zeta. cbn [snd trace].
    by rewrite !queries_log. }
  rewrite (IsActive_unregistered redis request w' Hgone).
  rewrite (GetMetricSpec_unregistered request w' Hgone).
  rewrite (GetMetrics_unregistered redis
             (mkGetMetricsRequest request metricName) w' Hgone).
  cbn [fst snd trace]. rewrite !queries_log. by repeat split.
Qed.

(** X7. New for one workload leaves every other workload as it was: its
    entry, and so the answers to the three queries about it. *)
Theorem New_leaves_others (redis : Redis) (request : NewRequest)
    (other : ScaledObjectRef) (metricName : string) (w : World) :
  getScalerUniqueName other
  ≠ getScalerUniqueName (New_ScaledObjectRef request) →
  let w' := snd (New request w) in
  registry w' !! getScalerUniqueName other
  = registry w !! getScalerUniqueName other
  ∧ fst (IsActive redis other w') = fst (IsActive redis other w)
  ∧ fst (GetMetricSpec other w') = fst (GetMetricSpec other w)
  ∧ fst (GetMetrics redis (mkGetMetricsRequest other metricName) w')
    = fst (GetMetrics redis (mkGetMetricsRequest other metricName) w).
Proof.
  intros Hne w'.
  assert (registry w' !! getScalerUniqueName other
          = registry w !! getScalerUniqueName other) as Hsame.
  { unfold w'. rewrite New_registry. cbn [registry_step].
    destruct (parseRedisMetadata (Metadata request)); [|done].
    by apply lookup_insert_ne. }
  split; [exact Hsame|]. split; [|split].
  - by apply IsActive_lookup_only.
  - by apply GetMetricSpec_lookup_only.
  - by apply GetMetrics_lookup_only.
Qed.

Lemma New_leaves_others_witness :
  fst (GetMetricSpec worker
         (snd (New (mkNewRequest (mkScaledObjectRef "default" "mailer")
                      mail_metadata) jobs_world)))
  = fst (GetMetricSpec worker jobs_world).
Proof.
  apply (New_leaves_others (redis_len 0)
           (mkNewRequest (mkScaledObjectRef "default" "mailer") mail_metadata)
           worker "any" jobs_world).
  vm_compute. discriminate.
Defined.

(** X8. Close for one workload leaves every other workload as it was. *)
Theorem Close_leaves_others (redis : Redis) (request other : ScaledObjectRef)
    (metricName : string) (w : World) :
  getScalerUniqueName other ≠ getScalerUniqueName request →
  let w' := snd (Close request w) in
  registry w' !! getScalerUniqueName other
  = registry w !! getScalerUniqueName other
  ∧ fst (IsActive redis other w') = fst (IsActive redis other w)
  ∧ fst (GetMetricSpec other w') = fst (GetMetricSpec other w)
  ∧ fst (GetMetrics redis (mkGetMetricsRequest other metricName) w')
    = fst (GetMetrics redis (mkGetMetricsRequest other metricName) w).
Proof.
  intros Hne w'.
  assert (registry w' !! getScalerUniqueName other
          = registry w !! getScalerUniqueName other) as Hsame.
  { unfold w'. rewrite Close_registry. by apply lookup_delete_ne. }
  split; [exact Hsame|]. split; [|split].
  - by apply IsActive_lookup_only.
  - by apply GetMetricSpec_lookup_only.
  - by apply GetMetrics_lookup_only.
Qed.

Lemma Close_leaves_others_witness :
  fst (GetMetricSpec worker
         (snd (Close (mkScaledObjectRef "default" "mailer") jobs_world)))
  = fst (GetMetricSpec worker jobs_world).
Proof.
  apply (Close_leaves_others (redis_len 0)
           (mkScaledObjectRef "default" "mailer") worker "any" jobs_world).
  vm_compute. discriminate.
Defined.

(** ** The three queries *)

(** X9. IsActive, GetMetricSpec and GetMetrics never change the server,
    whether the workload is known or not and whether Redis answers or
    fails. *)
Theorem queries_preserve_server (redis : Redis) (request : ScaledObjectRef)
    (metrics : GetMetricsRequest) (w : World) :
  srv (snd (IsActive redis request w)) = srv w
  ∧ srv (snd (GetMetricSpec request w)) = srv w
  ∧ srv (snd (GetMetrics redis metrics w)) = srv w.
Proof.
  split; [apply IsActive_srv|].
  split; [apply GetMetricSpec_srv | apply GetMetrics_srv].
Qed.

(** X10. IsActive and GetMetrics agree: against the same Redis answer
    one fails exactly when the other does, with the same error, and
    otherwise the workload is reported active exactly when the reported
    metric value is positive. *)
Theorem IsActive_agrees_with_GetMetrics (redis : Redis)
    (request : ScaledObjectRef) (metricName : string) (w : World) :
  match fst (GetMetrics redis (mkGetMetricsRequest request metricName) w) with
  | Fail e => fst (IsActive redis request w) = Fail e
  | Ok response =>
      ∃ value,
        MetricValues response = [mkMetricValue listLengthMetricName value]
        ∧ fst (IsActive redis request w)
          = Ok (mkIsActiveResponse (value >? 0))
  end.
Proof.
  destruct (registry w !! getScalerUniqueName request) as [sc|] eqn:E.
  - rewrite (GetMetrics_registered redis
               (mkGetMetricsRequest request metricName) w sc E).
    rewrite (IsActive_registered redis request w sc E). cbv zeta.
    destruct (cmd_err (redis _ _)); [reflexivity|]. by eexists.
  - rewrite (GetMetrics_unregistered redis
               (mkGetMetricsRequest request metricName) w E).
    by rewrite (IsActive_unregistered redis request w E).
Qed.

(** ** What the parser reads and what it makes *)

Lemma ParseUint_digits_bound (s : string) :
  ∀ n r, 0 <= n <= maxUint64 →
         ParseUint_digits s n = inr r → 0 <= r <= maxUint64.
Proof.
  induction s as [|c s IH]; intros n r Hn; cbn [ParseUint_digits].
  - by intros [= <-].
  - cbv zeta.
    destruct ((48 <=? byte_of c) && (byte_of c <=? 57)) eqn:Hdigit; [|done].
    destruct (n >=? maxUint64 / 10 + 1); [done|].
    destruct (n * 10 + (byte_of c - 48) >? maxUint64) eqn:Hover; [done|].
    apply IH. apply andb_true_iff in Hdigit as [H48 _].
    apply Z.leb_le in H48. rewrite Z.gtb_ltb in Hover.
    apply Z.ltb_ge in Hover. lia.
Qed.

Lemma ParseUint_bound (s : string) (r : Z) :
  ParseUint s = inr r → 0 <= r <= maxUint64.
Proof.
  unfold ParseUint. destruct s; [done|].
  apply ParseUint_digits_bound. unfold maxUint64. lia.
Qed.

Lemma Atoi_ok_range (s : string) (n : Z) :
  Atoi s = (n, None) → - 2 ^ 63 <= n < 2 ^ 63.
Proof.
  unfold Atoi. destruct s as [|c rest]; [done|]. cbv zeta.
  change (2 ^ (intSize - 1)) with (2 ^ 63).
  destruct (ParseUint _) as [[|]|un] eqn:HP.
  - done.
  - by destruct (Ascii.eqb c "-").
  - apply ParseUint_bound in HP.
    destruct (Ascii.eqb c "-"); cbn [negb andb].
    + destruct (un >? 2 ^ 63) eqn:Hgt; [done|]. intros [= <-].
      rewrite Z.gtb_ltb in Hgt. apply Z.ltb_ge in Hgt. lia.
    + destruct (un >=? 2 ^ 63) eqn:Hge; [done|]. intros [= <-].
      rewrite Z.geb_leb in Hge. apply Z.leb_gt in Hge. lia.
Qed.

Lemma Atoi_error_names_input (s : string) (e : NumError) :
  snd (Atoi s) = Some e → Func e = "Atoi" ∧ Num e = s.
Proof.
  unfold Atoi. destruct s as [|c rest]; cbv zeta.
  - by intros [= <-].
  - destruct (ParseUint _) as [[|]|un].
    + by intros [= <-].
    + destruct (Ascii.eqb c "-"); by intros [= <-].
    + destruct (negb _ && _); [by intros [= <-]|].
      destruct (_ && _); [by intros [= <-] | done].
Qed.

(** X11. The parser reads four keys and no other: metadata that agree on
    listLength, listName, address and password are parsed alike, so any
    further key is ignored. *)
Theorem parseRedisMetadata_reads_four_keys (m1 m2 : gmap string string) :
  same_options m1 m2 →
  parseRedisMetadata m1 = parseRedisMetadata m2.
Proof.
  intros (Hlen & Hname & Haddr & Hpass). unfold parseRedisMetadata.
  by rewrite Hlen, Hname, Haddr, Hpass.
Qed.

Lemma parseRedisMetadata_reads_four_keys_witness :
  parseRedisMetadata (<["db" := "7"]> jobs_metadata)
  = parseRedisMetadata jobs_metadata.
Proof.
  apply (parseRedisMetadata_reads_four_keys (<["db" := "7"]> jobs_metadata)
           jobs_metadata).
  repeat split; vm_compute; reflexivity.
Defined.

(** X12. A listLength that Atoi rejects is reported first and by value:
    the error is the list-length error carrying the rejected text, also
    when the listName is missing as well. *)
Theorem bad_listLength_reported_first (metadata : gmap string string)
    (val : string) :
  metadata !! "listLength" = Some val →
  snd (Atoi val) ≠ None →
  ∃ cause,
    parseRedisMetadata metadata
    = Fail (ListLengthParsingError (mkNumError "Atoi" val cause)).
Proof.
  intros Hlen Hbad. unfold parseRedisMetadata. rewrite Hlen.
  pose proof (Atoi_error_names_input val) as Hshape.
  destruct (Atoi val) as [n [e|]]; [|done]. cbn in Hshape.
  destruct (Hshape e eq_refl) as [Hf Hn]. destruct e as [f num cause].
  cbn in Hf, Hn. subst. by exists cause.
Qed.

Lemma bad_listLength_reported_first_witness :
  ∃ cause,
    parseRedisMetadata (<["listLength" := "1e3"]> ∅)
    = Fail (ListLengthParsingError (mkNumError "Atoi" "1e3" cause)).
Proof.
  apply (bad_listLength_reported_first (<["listLength" := "1e3"]> ∅) "1e3").
  - vm_compute. reflexivity.
  - vm_compute. discriminate.
Defined.

Lemma parseRedisMetadata_Ok_shape (metadata : gmap string string)
    (scaler : RedisScaler) :
  parseRedisMetadata metadata = Ok scaler →
  metadata !! "listName" = Some (listName scaler)
  ∧ address scaler ≠ EmptyString
  ∧ (address scaler = defaultRedisAddress
     ∨ metadata !! "address" = Some (address scaler))
  ∧ (password scaler = EmptyString
     ∨ metadata !! "password" = Some (password scaler))
  ∧ - 2 ^ 63 <= listLength scaler < 2 ^ 63
  ∧ (metadata !! "listLength" = None → listLength scaler = 5).
Proof.
  unfold parseRedisMetadata.
  destruct (metadata !! "listLength") as [val|] eqn:Hlen.
  - pose proof (Atoi_ok_range val) as Hrange.
    destruct (Atoi val) as [n [e|]]; [done|].
    destruct (metadata !! "listName") as [name|]; [|done].
    intros [= <-]. cbn.
    split; [done|]. split; [|split; [|split; [|split]]].
    + destruct (metadata !! "address") as [[|??]|]; done.
    + destruct (metadata !! "address") as [[|??]|]; cbn; auto.
    + destruct (metadata !! "password") as [[|??]|]; cbn; auto.
    + by apply Hrange.
    + done.
  - destruct (metadata !! "listName") as [name|]; [|done].
    intros [= <-]. cbn.
    split; [done|]. split; [|split; [|split; [|split]]].
    + destruct (metadata !! "address") as [[|??]|]; done.
    + destruct (metadata !! "address") as [[|??]|]; cbn; auto.
    + destruct (metadata !! "password") as [[|??]|]; cbn; auto.
    + unfold defaultTargetListLength. lia.
    + done.
Qed.

(** X13. What an accepted entry looks like: its queue name is the
    listName of the metadata; its address is never empty, being the
    metadata's address or the default; its password is the metadata's or
    empty; its threshold fits the 64-bit int and is 5 without a
    listLength. *)
Theorem accepted_entry_shape (metadata : gmap string string)
    (scaler : RedisScaler) :
  parseRedisMetadata metadata = Ok scaler →
  metadata !! "listName" = Some (listName scaler)
  ∧ address scaler ≠ EmptyString
  ∧ (address scaler = defaultRedisAddress
     ∨ metadata !! "address" = Some (address scaler))
  ∧ (password scaler = EmptyString
     ∨ metadata !! "password" = Some (password scaler))
  ∧ - 2 ^ 63 <= listLength scaler < 2 ^ 63
  ∧ (metadata !! "listLength" = None → listLength scaler = 5).
Proof. apply parseRedisMetadata_Ok_shape. Qed.

Lemma accepted_entry_shape_witness :
  address jobs_scaler ≠ EmptyString.
Proof.
  apply (accepted_entry_shape jobs_metadata jobs_scaler).
  vm_compute. reflexivity.
Defined.

(** ** Histories *)

Lemma serve_snd (redis : Redis) (c : call) (w : World) :
  snd (serve redis c w) =
  match c with
  | CallNew request => snd (New request w)
  | CallClose request => snd (Close request w)
  | CallIsActive request => snd (IsActive redis request w)
  | CallGetMetricSpec request => snd (GetMetricSpec request w)
  | CallGetMetrics request => snd (GetMetrics redis request w)
  end.
Proof.
  destruct c; unfold serve, bind, ret.
  - by destruct (New request w).
  - by destruct (Close request w).
  - by destruct (IsActive redis request w).
  - by destruct (GetMetricSpec request w).
  - by destruct (GetMetrics redis request w).
Qed.

Lemma serve_all_cons (redis : Redis) (c : call)
    (rest : list (Redis * call)) (w : World) :
  serve_all ((redis, c) :: rest) w =
  (fst (serve redis c w) :: fst (serve_all rest (snd (serve redis c w))),
   snd (serve_all rest (snd (serve redis c w)))).
Proof.
  cbn [serve_all]. unfold bind at 1 2, ret.
  destruct (serve redis c w) as [r w']. cbn [fst snd].
  by destruct (serve_all rest w').
Qed.

Lemma Plain_serve_all_cons (redis : Redis) (c : call)
    (rest : list (Redis * call)) (w : World) :
  Plain_serve_all ((redis, c) :: rest) w =
  (fst (Plain_serve redis c w)
     :: fst (Plain_serve_all rest (snd (Plain_serve redis c w))),
   snd (Plain_serve_all rest (snd (Plain_serve redis c w)))).
Proof.
  cbn [Plain_serve_all]. unfold bind at 1 2, ret.
  destruct (Plain_serve redis c w) as [r w']. cbn [fst snd].
  by destruct (Plain_serve_all rest w').
Qed.

Lemma serve_registry (redis : Redis) (c : call) (w : World) :
  registry (snd (serve redis c w)) = registry_step (registry w) c.
Proof.
  rewrite serve_snd. destruct c; cbn [registry_step].
  - apply New_registry.
  - apply Close_registry.
  - apply registry_srv, IsActive_srv.
  - apply registry_srv, GetMetricSpec_srv.
  - apply registry_srv, GetMetrics_srv.
Qed.

Lemma registry_step_well_formed (m : gmap string RedisScaler) (c : call) :
  map_Forall well_formed_entry m →
  map_Forall well_formed_entry (registry_step m c).
Proof.
  intros Hm. destruct c; cbn [registry_step]; try exact Hm.
  - destruct (parseRedisMetadata (Metadata request)) as [scaler|] eqn:Hp;
      [|exact Hm].
    apply map_Forall_insert_2; [|exact Hm].
    destruct (parseRedisMetadata_Ok_shape _ _ Hp) as (_ & Haddr & _ & _ & Hrange & _).
    split; [apply has_slash_append | by split].
  - by apply map_Forall_delete.
Qed.

Lemma serve_queries (redis : Redis) (c : call) (w : World) :
  queries (trace (snd (serve redis c w)))
  = queries (trace w)
    ++ match c with
       | CallIsActive request => llen_for w request
       | CallGetMetrics request =>
           llen_for w (GetMetrics_ScaledObjectRef request)
       | _ => []
       end.
Proof.
  rewrite serve_snd. unfold llen_for. destruct c.
  - rewrite New_run. cbv zeta.
    destruct (parseRedisMetadata (Metadata request)); cbn [snd trace];
      by rewrite !queries_log, app_nil_r.
  - rewrite Close_run. cbv zeta. cbn [snd trace].
    by rewrite !queries_log, app_nil_r.
  - unfold IsActive. go_steps. rewrite map_index_registry.
    destruct (registry w !! getScalerUniqueName request) as [sc|];
      [|cbn [snd trace]; by rewrite queries_log, app_nil_r].
    cbn. destruct (cmd_err (redis _ _)); cbn -[queries];
      rewrite ?queries_log, queries_app, queries_log; reflexivity.
  - unfold GetMetricSpec. go_steps. rewrite map_index_registry.
    destruct (registry w !! getScalerUniqueName request) as [sc|];
      cbn [snd trace]; by rewrite !queries_log, app_nil_r.
  - unfold GetMetrics. go_steps. rewrite map_index_registry.
    destruct (registry w !! getScalerUniqueName _) as [sc|];
      [|cbn [snd trace]; by rewrite queries_log, app_nil_r].
    cbn. destruct (cmd_err (redis _ _)); cbn -[queries];
      rewrite ?queries_log, queries_app, queries_log; reflexivity.
Qed.

Lemma serve_all_registry (history : list (Redis * call)) (w : World) :
  registry (snd (serve_all history w))
  = foldl registry_step (registry w) (history.*2).
Proof.
  revert w. induction history as [|[redis c] rest IH]; intros w.
  - reflexivity.
  - rewrite serve_all_cons. cbn [snd fmap list_fmap foldl].
    rewrite IH, serve_registry. reflexivity.
Qed.

(** X14. The program calls the Redis client's LLen only in IsActive and
    GetMetrics, only for a workload with an entry, and then exactly once
    per call: on a client made with the entry's address and password and
    with database 0, with the entry's list name as the key, whatever the
    command then reports.  New, Close, GetMetricSpec and calls for a
    workload without an entry never call it.  This counts the program's
    calls into the client library; what the library then does on the
    network for one such call is not part of the model. *)
Theorem LLen_calls_of_a_call (redis : Redis) (c : call) (w : World) :
  queries (trace (snd (serve redis c w)))
  = queries (trace w)
    ++ match c with
       | CallIsActive request => llen_for w request
       | CallGetMetrics request =>
           llen_for w (GetMetrics_ScaledObjectRef request)
       | _ => []
       end.
Proof. apply serve_queries. Qed.

(** X15. After any history of calls, the table of entries is what the
    successful New calls inserted and the Close calls deleted, in order:
    queries and refused New calls leave no mark on it. *)
Theorem registry_after_history (history : list (Redis * call)) (w : World) :
  registry (snd (serve_all history w))
  = foldl registry_step (registry w) (history.*2).
Proof. apply serve_all_registry. Qed.

(** X16. Every entry a server started empty ever holds is well formed:
    its key has a slash, its address is not empty and its threshold fits
    the 64-bit int (so the conversion to the int64 target size is exact). *)
Theorem entries_stay_well_formed (history : list (Redis * call))
    (key : string) (scaler : RedisScaler) :
  registry (snd (serve_all history start)) !! key = Some scaler →
  well_formed_entry key scaler.
Proof.
  rewrite serve_all_registry.
  assert (∀ (calls : list call) (m : gmap string RedisScaler),
            map_Forall well_formed_entry m →
            map_Forall well_formed_entry (foldl registry_step m calls))
    as Hfold.
  { induction calls as [|c calls IH]; intros m Hm; [exact Hm|].
    cbn [foldl]. by apply IH, registry_step_well_formed. }
  intros Hlook.
  apply (Hfold (history.*2) (registry start) (map_Forall_empty _)
           key scaler Hlook).
Qed.

Lemma entries_stay_well_formed_witness :
  well_formed_entry "default/mailer"
    (mkRedisScaler defaultRedisAddress defaultRedisPassword "mail" (-3)).
Proof.
  apply (entries_stay_well_formed sample_history).
  vm_compute. reflexivity.
Defined.

(** ** The two copies of the program on histories *)

Lemma Plain_serve_agrees (redis : Redis) (c : call) (w : World) :
  same_but_log (Plain_serve redis c w) (serve redis c w).
Proof.
  destruct c; unfold Plain_serve, serve, bind, ret.
  - destruct (Plain_New_agrees request w) as (Hr & Hs & Ht).
    destruct (Plain.New request w), (New request w).
    cbn in *. subst. by repeat split.
  - destruct (Plain_Close_agrees request w) as (Hr & Hs & Ht).
    destruct (Plain.Close request w), (Close request w).
    cbn in *. subst. by repeat split.
  - destruct (Plain_IsActive_agrees redis request w) as (Hr & Hs & Ht).
    destruct (Plain.IsActive redis request w), (IsActive redis request w).
    cbn in *. subst. by repeat split.
  - destruct (Plain_GetMetricSpec_agrees request w) as (Hr & Hs & Ht).
    destruct (Plain.GetMetricSpec request w), (GetMetricSpec request w).
    cbn in *. subst. by repeat split.
  - destruct (Plain_GetMetrics_agrees redis request w) as (Hr & Hs & Ht).
    destruct (Plain.GetMetrics redis request w),
      (GetMetrics redis request w).
    cbn in *. subst. by repeat split.
Qed.

(** What a call answers and does to the server depends on the server
    alone, not on what was logged or asked before. *)
Lemma serve_frame (redis : Redis) (c : call) (w1 w2 : World) :
  srv w1 = srv w2 →
  fst (serve redis c w1) = fst (serve redis c w2)
  ∧ srv (snd (serve redis c w1)) = srv (snd (serve redis c w2))
  ∧ registry w1 = registry w2.
Proof.
  intros Hsrv. pose proof (registry_srv w1 w2 Hsrv) as Hreg.
  destruct w1 as [s t1], w2 as [s' t2]. cbn in Hsrv. subst s'.
  split; [|split; [|exact Hreg]].
  - destruct c; unfold serve, New, Close, IsActive, GetMetricSpec,
      GetMetrics; go_steps.
    + by destruct (parseRedisMetadata (Metadata request)).
    + by destruct (map_index (scalers s) _).
    + destruct (map_index (scalers s) _); [|done].
      cbn. by destruct (cmd_err (redis _ _)).
    + by destruct (map_index (scalers s) _).
    + destruct (map_index (scalers s) _); [|done].
      cbn. by destruct (cmd_err (redis _ _)).
  - destruct c; unfold serve, New, Close, IsActive, GetMetricSpec,
      GetMetrics; go_steps.
    + by destruct (parseRedisMetadata (Metadata request)).
    + by destruct (map_index (scalers s) _).
    + destruct (map_index (scalers s) _); [|done].
      cbn. by destruct (cmd_err (redis _ _)).
    + by destruct (map_index (scalers s) _).
    + destruct (map_index (scalers s) _); [|done].
      cbn. by destruct (cmd_err (redis _ _)).
Qed.

Lemma copies_agree_from (history : list (Redis * call)) :
  ∀ w1 w2,
    srv w1 = srv w2 →
    queries (trace w1) = queries (trace w2) →
    same_but_log (Plain_serve_all history w1) (serve_all history w2).
Proof.
  induction history as [|[redis c] rest IH]; intros w1 w2 Hsrv Hq.
  - by repeat split.
  - rewrite Plain_serve_all_cons, serve_all_cons.
    destruct (Plain_serve_agrees redis c w1) as (Hr & Hs & Ht).
    destruct (serve_frame redis c w1 w2 Hsrv) as (Hr' & Hs' & Hreg).
    assert (queries (trace (snd (serve redis c w1)))
            = queries (trace (snd (serve redis c w2)))) as Ht'.
    { rewrite !serve_queries, Hq. unfold llen_for. by rewrite Hreg. }
    destruct (IH (snd (Plain_serve redis c w1)) (snd (serve redis c w2)))
      as (Ha & Hb & Hc); [congruence | congruence |].
    unfold same_but_log. cbn [fst snd].
    split; [|by split]. rewrite Ha. f_equal. congruence.
Qed.

(** X17. The earlier copy of the program and main.go cannot be told apart
    by a client or by Redis: served the same history from the same world
    they give the same replies, end with the same server and have sent
    Redis the same commands.  They differ in the log only. *)
Theorem copies_agree_on_histories (history : list (Redis * call))
    (w : World) :
  fst (Plain_serve_all history w) = fst (serve_all history w)
  ∧ srv (snd (Plain_serve_all history w)) = srv (snd (serve_all history w))
  ∧ queries (trace (snd (Plain_serve_all history w)))
    = queries (trace (snd (serve_all history w))).
Proof. by apply copies_agree_from. Qed.

(** The sample history on [main.go]. *)
Example sample_history_replies :
  fst (serve_all sample_history start)
  = [ ReplyEmpty (Ok mkEmpty);
      ReplyIsActive (Ok (mkIsActiveResponse true));
      ReplyGetMetrics
        (Ok (mkGetMetricsResponse [mkMetricValue "RedisListLength" 3]));
      ReplyEmpty (Ok mkEmpty);
      ReplyEmpty (Ok mkEmpty);
      ReplyIsActive (Fail (RedisError "timeout")) ].
Proof. vm_compute. reflexivity. Qed.

(** ** Repeated and refused registrations *)

(** X18. Sending the same New request a second time changes nothing
    further: the reply is the same and so are the entries. *)
Theorem New_idempotent (request : NewRequest) (w : World) :
  fst (New request (snd (New request w))) = fst (New request w)
  ∧ registry (snd (New request (snd (New request w))))
    = registry (snd (New request w)).
Proof.
  split.
  - rewrite !New_run. cbv zeta.
    by destruct (parseRedisMetadata (Metadata request)).
  - rewrite !New_registry. cbn [registry_step].
    destruct (parseRedisMetadata (Metadata request)); [|done].
    apply insert_insert_eq.
Qed.

(** X19. A refused New does not disturb a workload that is already
    registered: the old entry stays and the three queries answer as they
    did before. *)
Theorem refused_New_keeps_service (redis : Redis) (request : NewRequest)
    (metricName : string) (w : World) (e : error) :
  fst (New request w) = Fail e →
  let ref := New_ScaledObjectRef request in
  let w' := snd (New request w) in
  registry w' !! getScalerUniqueName ref
  = registry w !! getScalerUniqueName ref
  ∧ fst (IsActive redis ref w') = fst (IsActive redis ref w)
  ∧ fst (GetMetricSpec ref w') = fst (GetMetricSpec ref w)
  ∧ fst (GetMetrics redis (mkGetMetricsRequest ref metricName) w')
    = fst (GetMetrics redis (mkGetMetricsRequest ref metricName) w).
Proof.
  intros Hfail ref w'.
  assert (registry w' = registry w) as Hsame.
  { unfold w'. rewrite New_registry. cbn [registry_step].
    rewrite New_run in Hfail. cbv zeta in Hfail.
    by destruct (parseRedisMetadata (Metadata request)). }
  split; [by rewrite Hsame|]. split; [|split].
  - apply IsActive_lookup_only. by rewrite Hsame.
  - apply GetMetricSpec_lookup_only. by rewrite Hsame.
  - apply GetMetrics_lookup_only. by rewrite Hsame.
Qed.

Lemma refused_New_keeps_service_witness :
  fst (GetMetricSpec worker
         (snd (New (mkNewRequest worker unnamed_bad_threshold) jobs_world)))
  = fst (GetMetricSpec worker jobs_world).
Proof.
  apply (refused_New_keeps_service (redis_len 0)
           (mkNewRequest worker unnamed_bad_threshold) "any" jobs_world
           (ListLengthParsingError (mkNumError "Atoi" "abc" ErrSyntax))).
  vm_compute. reflexivity.
Defined.
